(** * AWS-GameServer-Ondemand: the two Lambda handlers

    A shallow embedding of [lambda/lambda_function.py] (the service
    auto-starter) and [notifier/lambda_sns_function.py] (the Discord webhook
    notifier), and the properties of the specification proved about them.

    Python values are a small inductive type, exceptions are values of a
    result type, and every call that leaves the process (boto3, http.client,
    print) is recorded in a trace; what the outside answers is given by a
    [World]. *)

From Stdlib Require Import ZArith NArith List Strings.String Strings.Ascii Strings.Byte Lia DecimalString.
From stdpp Require Import base list gmap.

Set Warnings "-register-all".
Open Scope Z_scope.

(** ** Python strings and bytes *)

(** A Python [str] is a sequence of Unicode code points. *)
Definition pystr := list N.

(** A source literal (the literals of both files are ASCII). *)
Definition lit (s : string) : pystr :=
  List.map N_of_ascii (list_ascii_of_string s).
Arguments lit : simpl never.

(** The characters a Rocq string literal cannot hold directly. *)
Definition QUOTE : N := 34%N.
Definition BACKSLASH : N := 92%N.
Definition NEWLINE : N := 10%N.

(** [str(n)], also what an f-string field [{n}] gives for an [int]. *)
Definition str_int (z : Z) : pystr := lit (NilZero.string_of_int (Z.to_int z)).
Arguments str_int : simpl never.

(** [x in t] on strings: [x] occurs as a contiguous run of [t]. *)
Definition occurs_in (x t : pystr) : Prop := exists pre post, t = pre ++ x ++ post.

Fixpoint starts_with (x t : pystr) : bool :=
  match x, t with
  | [], _ => true
  | a :: x', b :: t' => N.eqb a b && starts_with x' t'
  | _ :: _, [] => false
  end.

Fixpoint contains (x t : pystr) : bool :=
  starts_with x t ||
  match t with
  | [] => false
  | _ :: t' => contains x t'
  end.

(** ** Python values *)

(** The values the handlers touch: what a JSON document without fractional
    numbers decodes to, and [bytes]. A [dict] keeps insertion order and has
    [str] keys; lookup takes the first binding of a key. *)
Inductive pyval : Type :=
| PNone
| PBool (b : bool)
| PInt (z : Z)
| PStr (s : pystr)
| PBytes (bs : list byte)
| PList (items : list pyval)
| PDict (entries : list (pystr * pyval)).

(** ** Exceptions *)

Inductive exn : Type :=
| KeyError (key : pyval)
| IndexError (msg : pystr)
| TypeError (msg : pystr)
| ValueError (msg : pystr)
| UnicodeDecodeError (encoding : pystr) (object : list byte)
    (start stop : nat) (reason : pystr)
| LibraryError (class msg : pystr).

Inductive result (A : Type) : Type :=
| OK (a : A)
| Raise (e : exn).
Arguments OK {A} a.
Arguments Raise {A} e.

(** ** Subscription: [v[k]] *)

(** The subscripts both files write are string and integer literals. *)
Inductive subscript : Type :=
| Key (k : pystr)
| Idx (i : Z).

Fixpoint dict_get (entries : list (pystr * pyval)) (k : pystr) : option pyval :=
  match entries with
  | [] => None
  | (k', v) :: rest => if decide (k' = k) then Some v else dict_get rest k
  end.

(** Sequence indexing with Python's negative indices. *)
Definition seq_index {A} (l : list A) (i : Z) : option A :=
  let n := Z.of_nat (length l) in
  let j := if i <? 0 then i + n else i in
  if (j <? 0) || (n <=? j) then None else l !! Z.to_nat j.

Definition getitem (v : pyval) (k : subscript) : result pyval :=
  match v, k with
  | PDict entries, Key s =>
      match dict_get entries s with
      | Some x => OK x
      | None => Raise (KeyError (PStr s))
      end
  | PDict _, Idx i => Raise (KeyError (PInt i))
  | PList items, Idx i =>
      match seq_index items i with
      | Some x => OK x
      | None => Raise (IndexError (lit "list index out of range"))
      end
  | PList _, Key _ =>
      Raise (TypeError (lit "list indices must be integers or slices, not str"))
  | PStr s, Idx i =>
      match seq_index s i with
      | Some c => OK (PStr [c])
      | None => Raise (IndexError (lit "string index out of range"))
      end
  | PStr _, Key _ =>
      Raise (TypeError (lit "string indices must be integers, not 'str'"))
  | PBytes bs, Idx i =>
      match seq_index bs i with
      | Some b => OK (PInt (Z.of_N (Byte.to_N b)))
      | None => Raise (IndexError (lit "index out of range"))
      end
  | PBytes _, Key _ =>
      Raise (TypeError (lit "byte indices must be integers or slices, not str"))
  | PNone, _ => Raise (TypeError (lit "'NoneType' object is not subscriptable"))
  | PBool _, _ => Raise (TypeError (lit "'bool' object is not subscriptable"))
  | PInt _, _ => Raise (TypeError (lit "'int' object is not subscriptable"))
  end.

(** A chain of subscriptions [v[k1][k2]...], left to right. *)
Fixpoint getpath (v : pyval) (ks : list subscript) : result pyval :=
  match ks with
  | [] => OK v
  | k :: rest =>
      match getitem v k with
      | OK x => getpath x rest
      | Raise e => Raise e
      end
  end.

(** The exceptions a subscription raises: [KeyError] and [IndexError] for
    a key or an index that is not there, [TypeError] for a value that
    cannot be subscripted that way. *)
Definition lookup_error (e : exn) : bool :=
  match e with
  | KeyError _ | IndexError _ | TypeError _ => true
  | _ => false
  end.

(** [v == n] for an integer literal [n]; [bool] is a subclass of [int]. *)
Definition eq_int (v : pyval) (n : Z) : bool :=
  match v with
  | PInt z => z =? n
  | PBool b => (if b then 1 else 0) =? n
  | _ => false
  end.

(** [a + b]. *)
Definition py_add (a b : pyval) : result pyval :=
  match a, b with
  | PInt x, PInt y => OK (PInt (x + y))
  | PStr x, PStr y => OK (PStr (x ++ y))
  | PBytes x, PBytes y => OK (PBytes (x ++ y))
  | PList x, PList y => OK (PList (x ++ y))
  | PBytes _, PStr _ => Raise (TypeError (lit "can't concat str to bytes"))
  | _, _ => Raise (TypeError (lit "unsupported operand type(s) for +"))
  end.

(** ** The environment of the process: [os.environ] *)

(** [os.environ.get(key, default)]: a [str], or the default, which is
    Python's [None] (here [None] too) when the call leaves it out. *)
Definition environ_get (environ : gmap pystr pystr) (key : pystr)
    (default : option pystr) : option pystr :=
  match environ !! key with
  | Some v => Some v
  | None => default
  end.

(** [x is None]. *)
Definition is_None (x : option pystr) : bool :=
  match x with None => true | Some _ => false end.

(** ** Calls that leave the process *)

(** What [conn.request(method, url, body=..., headers=...)] is given, with
    the host the connection was made for. *)
Record Request : Type := {
  host : pyval;
  method : pystr;
  url : pyval;
  body : pystr;
  headers : list (pystr * pystr)
}.

(** One entry per call, in program order. A call is recorded when it is
    made, whether or not it then raises. *)
Inductive event : Type :=
| EvClient (service : pystr) (region_name : option pystr)
| EvDescribeServices (cluster : option pystr) (services : list (option pystr))
| EvUpdateService (cluster service : option pystr) (desiredCount : Z)
| EvPrint (line : pystr)
| EvHTTPSConnection (netloc : pyval)
| EvRequest (r : Request)
| EvGetResponse (r : Request).

(** A computation: its outcome and the calls it made. *)
Definition M (A : Type) : Type := (result A * list event)%type.

Definition outcome {A} (m : M A) : result A := fst m.
Definition trace {A} (m : M A) : list event := snd m.

Definition ret {A} (a : A) : M A := (OK a, []).

Definition raise {A} (e : exn) : M A := (Raise e, []).

(** Sequencing: an exception ends the computation, the calls made so far
    stay made. *)
Definition bind {A B} (m : M A) (k : A -> M B) : M B :=
  match outcome m with
  | OK a => (outcome (k a), trace m ++ trace (k a))
  | Raise e => (Raise e, trace m)
  end.

(** A step inside the process: no call is recorded. *)
Definition lift {A} (r : result A) : M A := (r, []).

(** An outside call: record it, then take the outcome the world gives. *)
Definition call {A} (ev : event) (answer : result A) : M A := (answer, [ev]).

(** A computation that comes after calls already made. *)
Definition after {A} (made : list event) (m : M A) : M A :=
  (outcome m, made ++ trace m).

Declare Scope py_scope.
Delimit Scope py_scope with py.
Notation "x <- m ;; k" := (bind m (fun x => k))
  (at level 100, m at next level, right associativity) : py_scope.
Notation "m ;;; k" := (bind m (fun _ => k))
  (at level 100, right associativity) : py_scope.
Open Scope py_scope.

(** The [update_service] calls of a trace, the lines printed, and the
    requests sent. *)
Definition updates (t : list event) : list (option pystr * option pystr * Z) :=
  omap (fun ev => match ev with
                  | EvUpdateService c s n => Some (c, s, n)
                  | _ => None
                  end) t.

Definition printed (t : list event) : list pystr :=
  omap (fun ev => match ev with EvPrint l => Some l | _ => None end) t.

Definition requests (t : list event) : list Request :=
  omap (fun ev => match ev with EvRequest r => Some r | _ => None end) t.

(** ** The standard library functions the handlers call *)

(** *** [json.dumps] with its default arguments

    [ensure_ascii] is on and the separators are [", "] and [": "]. *)

Definition hex_digit (n : N) : N :=
  (if n <? 10 then 48 + n else 87 + n)%N.

(** ['{0:04x}'.format(n)] for [n < 0x10000]. *)
Definition hex4 (n : N) : pystr :=
  [hex_digit (n / 4096 mod 16); hex_digit (n / 256 mod 16);
   hex_digit (n / 16 mod 16); hex_digit (n mod 16)]%N.

Definition u_escape (n : N) : pystr := BACKSLASH :: 117%N :: hex4 n.

(** The replacement [py_encode_basestring_ascii] gives one character:
    the table [ESCAPE_DCT], printable ASCII unchanged, and a [\uXXXX]
    escape (a surrogate pair above the basic plane) for the rest. *)
Definition escape_char (c : N) : pystr :=
  (if c =? BACKSLASH then [BACKSLASH; BACKSLASH]
   else if c =? QUOTE then [BACKSLASH; QUOTE]
   else if c =? 8 then [BACKSLASH; 98]
   else if c =? 12 then [BACKSLASH; 102]
   else if c =? 10 then [BACKSLASH; 110]
   else if c =? 13 then [BACKSLASH; 114]
   else if c =? 9 then [BACKSLASH; 116]
   else if (32 <=? c) && (c <=? 126) then [c]
   else if c <? 65536 then u_escape c
   else
     let n := c - 65536 in
     u_escape (N.lor 55296 (N.land (N.shiftr n 10) 1023)) ++
     u_escape (N.lor 56320 (N.land n 1023)))%N.

Definition encode_basestring_ascii (s : pystr) : pystr :=
  [QUOTE] ++ concat (List.map escape_char s) ++ [QUOTE].

(** [sep.join(parts)]. *)
Fixpoint join (sep : pystr) (parts : list pystr) : pystr :=
  match parts with
  | [] => []
  | [p] => p
  | p :: rest => p ++ sep ++ join sep rest
  end.

Fixpoint json_dumps (v : pyval) : result pystr :=
  match v with
  | PNone => OK (lit "null")
  | PBool true => OK (lit "true")
  | PBool false => OK (lit "false")
  | PInt z => OK (str_int z)
  | PStr s => OK (encode_basestring_ascii s)
  | PBytes _ =>
      Raise (TypeError (lit "Object of type bytes is not JSON serializable"))
  | PList items =>
      let fix each (l : list pyval) : result (list pystr) :=
        match l with
        | [] => OK []
        | x :: rest =>
            match json_dumps x with
            | Raise e => Raise e
            | OK s =>
                match each rest with
                | Raise e => Raise e
                | OK ss => OK (s :: ss)
                end
            end
        end in
      match each items with
      | Raise e => Raise e
      | OK ss => OK (lit "[" ++ join (lit ", ") ss ++ lit "]")
      end
  | PDict entries =>
      let fix each (l : list (pystr * pyval)) : result (list pystr) :=
        match l with
        | [] => OK []
        | (k, x) :: rest =>
            match json_dumps x with
            | Raise e => Raise e
            | OK s =>
                match each rest with
                | Raise e => Raise e
                | OK ss => OK ((encode_basestring_ascii k ++ lit ": " ++ s) :: ss)
                end
            end
        end in
      match each entries with
      | Raise e => Raise e
      | OK ss => OK (lit "{" ++ join (lit ", ") ss ++ lit "}")
      end
  end.

(** The text [json.dumps] gives for [{"content": message}] when the
    message is a string. *)
Definition content_body (message : pystr) : pystr :=
  lit "{" ++ encode_basestring_ascii (lit "content") ++ lit ": " ++
  encode_basestring_ascii message ++ lit "}".

(** *** [bytes.decode()]: strict UTF-8 *)

Definition utf8 : pystr := lit "utf-8".

Definition between (lo b hi : N) : bool := ((lo <=? b) && (b <=? hi))%N.

(** The range of the second byte after the lead byte [b0] of a three or
    four byte sequence (no overlong forms, no surrogates, nothing above
    U+10FFFF). *)
Definition second_byte_ok (b0 b1 : N) : bool :=
  (if b0 =? 224 then between 160 b1 191
   else if b0 =? 237 then between 128 b1 159
   else if b0 =? 240 then between 144 b1 191
   else if b0 =? 244 then between 128 b1 143
   else between 128 b1 191)%N.

Definition is_continuation (b : N) : bool := between 128 b 191.

Definition low6 (b : N) : N := N.land b 63.

(** Decoding of [bs], the part of [object] from position [pos] on. *)
Fixpoint utf8_decode_from (object : list byte) (pos : nat) (bs : list byte)
    : result pystr :=
  let fail (len : nat) (reason : string) :=
    Raise (UnicodeDecodeError utf8 object pos (pos + len) (lit reason)) in
  let continue (c : N) (n : nat) (rest : list byte) :=
    match utf8_decode_from object (pos + n) rest with
    | OK s => OK (c :: s)
    | Raise e => Raise e
    end in
  match bs with
  | [] => OK []
  | x0 :: r0 =>
      let b0 := Byte.to_N x0 in
      if (b0 <? 128)%N then continue b0 1%nat r0
      else if (b0 <? 194)%N || (244 <? b0)%N then fail 1%nat "invalid start byte"%string
      else
        match r0 with
        | [] => fail 1%nat "unexpected end of data"%string
        | x1 :: r1 =>
            let b1 := Byte.to_N x1 in
            if (b0 <? 224)%N then
              if is_continuation b1
              then continue (N.lor (N.shiftl (N.land b0 31) 6) (low6 b1)) 2%nat r1
              else fail 1%nat "invalid continuation byte"%string
            else if negb (second_byte_ok b0 b1)
            then fail 1%nat "invalid continuation byte"%string
            else
              match r1 with
              | [] => fail 2%nat "unexpected end of data"%string
              | x2 :: r2 =>
                  let b2 := Byte.to_N x2 in
                  if negb (is_continuation b2)
                  then fail 2%nat "invalid continuation byte"%string
                  else if (b0 <? 240)%N then
                    continue (N.lor (N.shiftl (N.land b0 15) 12)
                                (N.lor (N.shiftl (low6 b1) 6) (low6 b2)))
                             3%nat r2
                  else
                    match r2 with
                    | [] => fail 3%nat "unexpected end of data"%string
                    | x3 :: r3 =>
                        let b3 := Byte.to_N x3 in
                        if is_continuation b3 then
                          continue (N.lor (N.shiftl (N.land b0 7) 18)
                                      (N.lor (N.shiftl (low6 b1) 12)
                                         (N.lor (N.shiftl (low6 b2) 6) (low6 b3))))
                                   4%nat r3
                        else fail 3%nat "invalid continuation byte"%string
                    end
              end
        end
  end.

Definition decode (bs : list byte) : result pystr := utf8_decode_from bs 0 bs.

(** *** [str(e)] for an exception *)

Definition hex2 (n : N) : pystr :=
  [hex_digit (n / 16 mod 16); hex_digit (n mod 16)]%N.

(** Whether [repr] of the string is the string between single quotes. *)
Definition plain_repr (s : pystr) : bool :=
  forallb (fun c => between 32 c 126 && negb (c =? 39)%N && negb (c =? BACKSLASH)%N) s.

(** [str(e)]. The text of a [KeyError] is the [repr] of its key, which is
    given here for an integer and for a string of printable ASCII characters
    without quote or backslash; elsewhere the text is left undetermined. *)
Definition exn_str (e : exn) : option pystr :=
  match e with
  | KeyError (PInt i) => Some (str_int i)
  | KeyError (PStr s) =>
      if plain_repr s then Some (lit "'" ++ s ++ lit "'") else None
  | KeyError _ => None
  | IndexError msg | TypeError msg | ValueError msg => Some msg
  | UnicodeDecodeError encoding object start stop reason =>
      match object !! start with
      | Some b =>
          if (stop =? S start)%nat then
            Some (lit "'" ++ encoding ++ lit "' codec can't decode byte 0x" ++
                  hex2 (Byte.to_N b) ++ lit " in position " ++
                  str_int (Z.of_nat start) ++ lit ": " ++ reason)
          else
            Some (lit "'" ++ encoding ++ lit "' codec can't decode bytes in position " ++
                  str_int (Z.of_nat start) ++ lit "-" ++
                  str_int (Z.of_nat stop - 1) ++ lit ": " ++ reason)
      | None =>
          Some (lit "'" ++ encoding ++ lit "' codec can't decode bytes in position " ++
                str_int (Z.of_nat start) ++ lit "-" ++
                str_int (Z.of_nat stop - 1) ++ lit ": " ++ reason)
      end
  | LibraryError _ msg => Some msg
  end.

(** ** The outside world *)

(** The six fields of the tuple [urlparse] returns. *)
Record ParseResult (T : Type) : Type := {
  scheme : T;
  netloc : T;
  path : T;
  params : T;
  query : T;
  fragment : T
}.
Arguments scheme {T} _.
Arguments netloc {T} _.
Arguments path {T} _.
Arguments params {T} _.
Arguments query {T} _.
Arguments fragment {T} _.

(** A response as the handlers use it: [res.status] and what [res.read()]
    returns. *)
Record HTTPResponse : Type := {
  status : Z;
  read : list byte
}.

(** What the libraries and the services behind them answer. The handlers
    make each call at most once in an invocation, so an answer is a
    function of the call's arguments. *)
Record World : Type := {
  (** [urllib.parse.urlparse] on a [str] *)
  urlparse_str : pystr -> result (ParseResult pystr);
  (** [boto3.client(service, region_name=...)] *)
  client_answer : pystr -> option pystr -> result unit;
  (** [describe_services] of the client made for a region *)
  describe_services_answer :
    option pystr -> option pystr -> list (option pystr) -> result pyval;
  (** [update_service] of the client made for a region *)
  update_service_answer :
    option pystr -> option pystr -> option pystr -> Z -> result pyval;
  (** [http.client.HTTPSConnection(netloc)] *)
  connection_answer : pyval -> result unit;
  (** [conn.request(...)] *)
  request_answer : Request -> result unit;
  (** [conn.getresponse()] after that request *)
  getresponse_answer : Request -> result HTTPResponse
}.

(** [urllib.parse.urlparse(x)] for a configuration value [x]. For [None],
    [_coerce_args] takes the false non-[str] argument as an empty string
    and encodes the result: six empty [bytes]. *)
Definition urlparse (w : World) (x : option pystr) : result (ParseResult pyval) :=
  match x with
  | Some s =>
      match urlparse_str w s with
      | OK c =>
          OK {| scheme := PStr (scheme c); netloc := PStr (netloc c);
                path := PStr (path c); params := PStr (params c);
                query := PStr (query c); fragment := PStr (fragment c) |}
      | Raise e => Raise e
      end
  | None =>
      OK {| scheme := PBytes []; netloc := PBytes []; path := PBytes [];
            params := PBytes []; query := PBytes []; fragment := PBytes [] |}
  end.

(** The connection object stands for the host it was made for. *)
Definition HTTPSConnection (w : World) (netloc : pyval) : M pyval :=
  call (EvHTTPSConnection netloc) (connection_answer w netloc) ;;;
  ret netloc.

Definition conn_request (w : World) (conn : pyval) (method : pystr)
    (url : pyval) (body : pystr) (headers : list (pystr * pystr)) : M Request :=
  let r := {| host := conn; method := method; url := url; body := body;
              headers := headers |} in
  call (EvRequest r) (request_answer w r) ;;;
  ret r.

Definition conn_getresponse (w : World) (sent : Request) : M HTTPResponse :=
  call (EvGetResponse sent) (getresponse_answer w sent).

Definition print (line : pystr) : M unit := call (EvPrint line) (OK tt).

(** ** [lambda/lambda_function.py]: ServiceAutoStarter *)

Module ServiceAutoStarter.

Definition DEFAULT_REGION : pystr := lit "us-west-2".
Definition DEFAULT_CLUSTER : pystr := lit "minecraft".
Definition DEFAULT_SERVICE : pystr := lit "minecraft-server".

(** The module's globals read from the environment. *)
Record globals : Type := {
  REGION : option pystr;
  CLUSTER : option pystr;
  SERVICE : option pystr;
  WEBHOOK : option pystr
}.

Definition read_environ (environ : gmap pystr pystr) : globals :=
  {| REGION := environ_get environ (lit "REGION") (Some DEFAULT_REGION);
     CLUSTER := environ_get environ (lit "CLUSTER") (Some DEFAULT_CLUSTER);
     SERVICE := environ_get environ (lit "SERVICE") (Some DEFAULT_SERVICE);
     WEBHOOK := environ_get environ (lit "WEBHOOK") None |}.

(** [REGION is None or CLUSTER is None or SERVICE is None] *)
Definition missing (g : globals) : bool :=
  is_None (REGION g) || is_None (CLUSTER g) || is_None (SERVICE g).

(** The module body: what importing the file does at process start. *)
Definition module_init (environ : gmap pystr pystr) : result globals :=
  let g := read_environ environ in
  if missing g then Raise (ValueError (lit "Missing environment variables"))
  else OK g.

(** [response["services"][0]["desiredCount"]] *)
Definition desired_path : list subscript :=
  [Key (lit "services"); Idx 0; Key (lit "desiredCount")].

Definition lambda_handler (g : globals) (w : World) (event context : pyval)
    : M unit :=
  call (EvClient (lit "ecs") (REGION g)) (client_answer w (lit "ecs") (REGION g)) ;;;
  response <- call (EvDescribeServices (CLUSTER g) [SERVICE g])
                (describe_services_answer w (REGION g) (CLUSTER g) [SERVICE g]) ;;
  desired <- lift (getpath response desired_path) ;;
  if eq_int desired 0 then
    call (EvUpdateService (CLUSTER g) (SERVICE g) 1)
      (update_service_answer w (REGION g) (CLUSTER g) (SERVICE g) 1) ;;;
    print (lit "Updated desiredCount to 1")
  else
    print (lit "desiredCount already at 1").

Definition message : pystr := lit "attempting to Start Minecraft".

Definition notifyDiscordWebhook (g : globals) (w : World) : M unit :=
  url <- lift (urlparse w (WEBHOOK g)) ;;
  conn <- HTTPSConnection w (netloc url) ;;
  let headers := [(lit "Content-Type", lit "application/json")] in
  let data := PDict [(lit "content", PStr message)] in
  path_q <- lift (py_add (path url) (PStr (lit "?"))) ;;
  target <- lift (py_add path_q (query url)) ;;
  body <- lift (json_dumps data) ;;
  sent <- conn_request w conn (lit "POST") target body headers ;;
  res <- conn_getresponse w sent ;;
  if negb (status res =? 204) then
    text <- lift (decode (read res)) ;;
    raise (ValueError (lit "Request to Discord returned an error " ++
                       str_int (status res) ++
                       lit ", the response is:" ++ [NEWLINE] ++ text))
  else ret tt.

(** Process start, then one invocation. *)
Definition cold_start (environ : gmap pystr pystr) (w : World)
    (event context : pyval) : M unit :=
  g <- lift (module_init environ) ;;
  lambda_handler g w event context.

End ServiceAutoStarter.

(** ** [notifier/lambda_sns_function.py]: WebhookNotifier *)

Module WebhookNotifier.

Record globals : Type := {
  WEBHOOK : option pystr
}.

Definition read_environ (environ : gmap pystr pystr) : globals :=
  {| WEBHOOK := environ_get environ (lit "WEBHOOK") None |}.

(** The module body: what importing the file does at process start. *)
Definition module_init (environ : gmap pystr pystr) : result globals :=
  let g := read_environ environ in
  if is_None (WEBHOOK g) then Raise (ValueError (lit "Missing environment variables"))
  else OK g.

(** [event['Records'][0]['Sns']['Message']] *)
Definition message_path : list subscript :=
  [Key (lit "Records"); Idx 0; Key (lit "Sns"); Key (lit "Message")].

(** The handler up to the response: everything before the status check. *)
Definition exchange (g : globals) (w : World) (event : pyval) : M HTTPResponse :=
  url <- lift (urlparse w (WEBHOOK g)) ;;
  conn <- HTTPSConnection w (netloc url) ;;
  let headers := [(lit "Content-Type", lit "application/json")] in
  message <- lift (getpath event message_path) ;;
  let data := PDict [(lit "content", message)] in
  path_q <- lift (py_add (path url) (PStr (lit "?"))) ;;
  target <- lift (py_add path_q (query url)) ;;
  body <- lift (json_dumps data) ;;
  sent <- conn_request w conn (lit "POST") target body headers ;;
  conn_getresponse w sent.

(** The request the handler builds from the parsed URL and the encoded
    message. *)
Definition request_for (c : ParseResult pystr) (body : pystr) : Request :=
  {| host := PStr (netloc c); method := lit "POST";
     url := PStr (path c ++ lit "?" ++ query c); body := body;
     headers := [(lit "Content-Type", lit "application/json")] |}.

(** The handler's last statement: the check of the response. *)
Definition status_check (res : HTTPResponse) : M unit :=
  if negb (status res =? 204) then
    text <- lift (decode (read res)) ;;
    raise (ValueError (lit "Request to Discord returned an error " ++
                       str_int (status res) ++
                       lit ", the response is:" ++ [NEWLINE] ++ text))
  else ret tt.

Definition notifyDiscordWebhook (g : globals) (w : World) (event context : pyval)
    : M unit :=
  url <- lift (urlparse w (WEBHOOK g)) ;;
  conn <- HTTPSConnection w (netloc url) ;;
  let headers := [(lit "Content-Type", lit "application/json")] in
  message <- lift (getpath event message_path) ;;
  let data := PDict [(lit "content", message)] in
  path_q <- lift (py_add (path url) (PStr (lit "?"))) ;;
  target <- lift (py_add path_q (query url)) ;;
  body <- lift (json_dumps data) ;;
  sent <- conn_request w conn (lit "POST") target body headers ;;
  res <- conn_getresponse w sent ;;
  if negb (status res =? 204) then
    text <- lift (decode (read res)) ;;
    raise (ValueError (lit "Request to Discord returned an error " ++
                       str_int (status res) ++
                       lit ", the response is:" ++ [NEWLINE] ++ text))
  else ret tt.

(** Process start, then one invocation. *)
Definition cold_start (environ : gmap pystr pystr) (w : World)
    (event context : pyval) : M unit :=
  g <- lift (module_init environ) ;;
  notifyDiscordWebhook g w event context.

End WebhookNotifier.

(** ** Sample environments, worlds and events *)

Module Sample.

Definition bytes_of (l : list N) : list byte :=
  List.map (fun n => match Byte.of_N n with Some b => b | None => x00 end) l.

Definition hook : pystr := lit "https://discord.com/api/webhooks/1/abc".

(** What [urlparse] gives for [hook]. *)
Definition hook_parts : ParseResult pystr :=
  {| scheme := lit "https"; netloc := lit "discord.com";
     path := lit "/api/webhooks/1/abc"; params := []; query := [];
     fragment := [] |}.

Definition hook_wait : pystr := lit "https://discord.com/api/webhooks/1/abc?wait=true".

Definition hook_wait_parts : ParseResult pystr :=
  {| scheme := lit "https"; netloc := lit "discord.com";
     path := lit "/api/webhooks/1/abc"; params := []; query := lit "wait=true";
     fragment := [] |}.

(** A [describe_services] response reporting one service. *)
Definition describe_response (desiredCount : pyval) : pyval :=
  PDict [(lit "services",
          PList [PDict [(lit "serviceName", PStr (lit "minecraft-server"));
                        (lit "desiredCount", desiredCount);
                        (lit "runningCount", PInt 0)]]);
         (lit "failures", PList [])].

(** A world in which every call succeeds: the service reports
    [desiredCount] and the webhook answers [res]. *)
Definition world (desiredCount : pyval) (res : HTTPResponse) : World :=
  {| urlparse_str := fun s =>
       if decide (s = hook) then OK hook_parts
       else if decide (s = hook_wait) then OK hook_wait_parts
       else Raise (ValueError (lit "not a URL of the sample world"));
     client_answer := fun _ _ => OK tt;
     describe_services_answer := fun _ _ _ => OK (describe_response desiredCount);
     update_service_answer := fun _ _ _ _ => OK (PDict []);
     connection_answer := fun _ => OK tt;
     request_answer := fun _ => OK tt;
     getresponse_answer := fun _ => OK res |}.

Definition no_content : HTTPResponse := {| status := 204; read := [] |}.

Definition server_error : HTTPResponse :=
  {| status := 500; read := bytes_of (lit "server error") |}.

(** Status 500 with the one byte [0xff] as body. *)
Definition garbled_error : HTTPResponse :=
  {| status := 500; read := bytes_of [255%N] |}.

(** [{"Records":[{"Sns":{"Message":"hello"}}]}] *)
Definition hello_event : pyval :=
  PDict [(lit "Records",
          PList [PDict [(lit "Sns", PDict [(lit "Message", PStr (lit "hello"))])]])].

(** The same message inside a fuller notification envelope. *)
Definition hello_event_full : pyval :=
  PDict [(lit "Records",
          PList [PDict [(lit "EventSource", PStr (lit "aws:sns"));
                        (lit "Sns", PDict [(lit "Subject", PNone);
                                           (lit "Message", PStr (lit "hello"));
                                           (lit "Type", PStr (lit "Notification"))])];
                 PDict [(lit "Sns", PDict [(lit "Message", PStr (lit "again"))])]]);
         (lit "extra", PInt 7)].

(** An event without [Records]. *)
Definition no_records_event : pyval := PDict [(lit "detail", PStr (lit "x"))].

(** The notification that carries the auto-starter's fixed message. *)
Definition start_event : pyval :=
  PDict [(lit "Records",
          PList [PDict [(lit "Sns",
                         PDict [(lit "Message",
                                 PStr ServiceAutoStarter.message)])]])].

Definition notifier_globals : WebhookNotifier.globals :=
  {| WebhookNotifier.WEBHOOK := Some hook |}.

Definition starter_globals : ServiceAutoStarter.globals :=
  ServiceAutoStarter.read_environ ∅.

End Sample.

(** ** Worlds in which a call fails, and further responses and events *)

Module Fault.

Definition throttled : exn :=
  LibraryError (lit "ClientError") (lit "ThrottlingException: Rate exceeded").

Definition refused : exn :=
  LibraryError (lit "ConnectionRefusedError") (lit "[Errno 111] Connection refused").

Definition client_fails (e : exn) (w : World) : World :=
  {| urlparse_str := urlparse_str w;
     client_answer := fun _ _ => Raise e;
     describe_services_answer := describe_services_answer w;
     update_service_answer := update_service_answer w;
     connection_answer := connection_answer w;
     request_answer := request_answer w;
     getresponse_answer := getresponse_answer w |}.

Definition describe_fails (e : exn) (w : World) : World :=
  {| urlparse_str := urlparse_str w;
     client_answer := client_answer w;
     describe_services_answer := fun _ _ _ => Raise e;
     update_service_answer := update_service_answer w;
     connection_answer := connection_answer w;
     request_answer := request_answer w;
     getresponse_answer := getresponse_answer w |}.

(** [describe_services] answers [response]. *)
Definition describes (response : pyval) (w : World) : World :=
  {| urlparse_str := urlparse_str w;
     client_answer := client_answer w;
     describe_services_answer := fun _ _ _ => OK response;
     update_service_answer := update_service_answer w;
     connection_answer := connection_answer w;
     request_answer := request_answer w;
     getresponse_answer := getresponse_answer w |}.

Definition update_fails (e : exn) (w : World) : World :=
  {| urlparse_str := urlparse_str w;
     client_answer := client_answer w;
     describe_services_answer := describe_services_answer w;
     update_service_answer := fun _ _ _ _ => Raise e;
     connection_answer := connection_answer w;
     request_answer := request_answer w;
     getresponse_answer := getresponse_answer w |}.


Definition request_fails (e : exn) (w : World) : World :=
  {| urlparse_str := urlparse_str w;
     client_answer := client_answer w;
     describe_services_answer := describe_services_answer w;
     update_service_answer := update_service_answer w;
     connection_answer := connection_answer w;
     request_answer := fun _ => Raise e;
     getresponse_answer := getresponse_answer w |}.

Definition getresponse_fails (e : exn) (w : World) : World :=
  {| urlparse_str := urlparse_str w;
     client_answer := client_answer w;
     describe_services_answer := describe_services_answer w;
     update_service_answer := update_service_answer w;
     connection_answer := connection_answer w;
     request_answer := request_answer w;
     getresponse_answer := fun _ => Raise e |}.

(** What [describe_services] returns for a service the cluster does not
    have: no service, one failure. *)
Definition missing_service_response : pyval :=
  PDict [(lit "services", PList []);
         (lit "failures",
          PList [PDict [(lit "arn", PStr (lit "arn:aws:ecs:us-west-2:1:service/minecraft/minecraft-server"));
                        (lit "reason", PStr (lit "MISSING"))]])].

(** A notification whose message is a JSON object, not a string. *)
Definition object_message_event : pyval :=
  PDict [(lit "Records",
          PList [PDict [(lit "Sns",
                         PDict [(lit "Message",
                                 PDict [(lit "alarm", PBool true);
                                        (lit "count", PInt 3)])])]])].

(** A message outside ASCII: "caf\u00e9", a euro sign and U+1F600. *)
Definition unicode_event : pyval :=
  PDict [(lit "Records",
          PList [PDict [(lit "Sns",
                         PDict [(lit "Message",
                                 PStr [99; 97; 102; 233; 32; 8364; 32; 128512]%N)])]])].

Definition not_found : HTTPResponse :=
  {| status := 404; read := Sample.bytes_of (lit "Unknown Webhook") |}.

(** Status 204 with a body that is not valid UTF-8. *)
Definition garbled_no_content : HTTPResponse :=
  {| status := 204; read := Sample.bytes_of [255%N; 254%N] |}.

End Fault.

(** A printable ASCII character. *)
Definition printable (c : N) : bool := between 32 c 126.

Definition all_printable (s : pystr) : Prop :=
  Forall (fun c => printable c = true) s.

(** * Properties *)

(** ** The models on concrete inputs *)

Example str_int_500 : str_int 500 = lit "500".
Proof. reflexivity. Qed.

Example str_int_negative : str_int (-5) = lit "-5".
Proof. reflexivity. Qed.

Example seq_index_last : seq_index [1; 2; 3] (-1) = Some 3.
Proof. reflexivity. Qed.

Example seq_index_out_of_range : seq_index [1; 2; 3] 3 = None.
Proof. reflexivity. Qed.

Example eq_int_false_is_zero : eq_int (PBool false) 0 = true.
Proof. reflexivity. Qed.

Example escape_newline : escape_char NEWLINE = lit "\n".
Proof. reflexivity. Qed.

Example escape_quote : escape_char QUOTE = [BACKSLASH; QUOTE].
Proof. reflexivity. Qed.

Example escape_e_acute : escape_char 233 = lit "\u00e9".
Proof. reflexivity. Qed.

Example escape_above_basic_plane : escape_char 128512 = lit "\ud83d\ude00".
Proof. reflexivity. Qed.

Example json_dumps_hello :
  json_dumps (PDict [(lit "content", PStr (lit "hello"))]) =
    OK (lit "{" ++ [QUOTE] ++ lit "content" ++ [QUOTE] ++ lit ": " ++
        [QUOTE] ++ lit "hello" ++ [QUOTE] ++ lit "}").
Proof. reflexivity. Qed.

Example json_dumps_nested :
  json_dumps (PList [PInt 1; PBool true; PNone; PDict []; PList [PInt (-2)]]) =
    OK (lit "[1, true, null, {}, [-2]]").
Proof. reflexivity. Qed.

Example json_dumps_bytes :
  json_dumps (PDict [(lit "content", PBytes [])]) =
    Raise (TypeError (lit "Object of type bytes is not JSON serializable")).
Proof. reflexivity. Qed.

Example decode_euro : decode (Sample.bytes_of [226; 130; 172]%N) = OK [8364%N].
Proof. reflexivity. Qed.

Example decode_four_bytes :
  decode (Sample.bytes_of [240; 159; 152; 128]%N) = OK [128512%N].
Proof. reflexivity. Qed.

Example decode_truncated :
  decode (Sample.bytes_of [97; 226; 130]%N) =
    Raise (UnicodeDecodeError utf8 (Sample.bytes_of [97; 226; 130]%N) 1 3
             (lit "unexpected end of data")).
Proof. reflexivity. Qed.

Example decode_surrogate :
  decode (Sample.bytes_of [237; 160; 128]%N) =
    Raise (UnicodeDecodeError utf8 (Sample.bytes_of [237; 160; 128]%N) 0 1
             (lit "invalid continuation byte")).
Proof. reflexivity. Qed.

Example exn_str_truncated :
  exn_str (UnicodeDecodeError utf8 (Sample.bytes_of [97; 226; 130]%N) 1 3
             (lit "unexpected end of data")) =
    Some (lit "'utf-8' codec can't decode bytes in position 1-2: unexpected end of data").
Proof. reflexivity. Qed.

Example exn_str_key_error :
  exn_str (KeyError (PStr (lit "Records"))) = Some (lit "'Records'").
Proof. reflexivity. Qed.

Example getpath_hello :
  getpath Sample.hello_event WebhookNotifier.message_path = OK (PStr (lit "hello")).
Proof. reflexivity. Qed.

Example getpath_hello_full :
  getpath Sample.hello_event_full WebhookNotifier.message_path =
    OK (PStr (lit "hello")).
Proof. reflexivity. Qed.

Example getpath_no_records :
  getpath (PDict [(lit "Records", PList [])]) WebhookNotifier.message_path =
    Raise (IndexError (lit "list index out of range")).
Proof. reflexivity. Qed.

Example getpath_record_not_a_dict :
  getpath (PDict [(lit "Records", PList [PInt 5])]) WebhookNotifier.message_path =
    Raise (TypeError (lit "'int' object is not subscriptable")).
Proof. reflexivity. Qed.

Example getpath_null_event :
  getpath PNone WebhookNotifier.message_path =
    Raise (TypeError (lit "'NoneType' object is not subscriptable")).
Proof. reflexivity. Qed.

Example getpath_desired :
  getpath (Sample.describe_response (PInt 2)) ServiceAutoStarter.desired_path =
    OK (PInt 2).
Proof. reflexivity. Qed.

(** One invocation of each handler in a world where every call succeeds. *)
Example starter_run_already_started :
  ServiceAutoStarter.cold_start ∅ (Sample.world (PInt 2) Sample.no_content)
    PNone PNone =
    (OK tt,
     [EvClient (lit "ecs") (Some (lit "us-west-2"));
      EvDescribeServices (Some (lit "minecraft")) [Some (lit "minecraft-server")];
      EvPrint (lit "desiredCount already at 1")]).
Proof. vm_compute. reflexivity. Qed.

Example notifier_run_hello :
  WebhookNotifier.cold_start {[ lit "WEBHOOK" := Sample.hook ]}
    (Sample.world (PInt 0) Sample.no_content) Sample.hello_event PNone =
    (OK tt,
     [EvHTTPSConnection (PStr (lit "discord.com"));
      EvRequest (WebhookNotifier.request_for Sample.hook_parts
                   (content_body (lit "hello")));
      EvGetResponse (WebhookNotifier.request_for Sample.hook_parts
                       (content_body (lit "hello")))]).
Proof. vm_compute. reflexivity. Qed.

(** ** The computation monad *)

Lemma bind_assoc {A B C} (m : M A) (f : A -> M B) (h : B -> M C) :
  bind (bind m f) h = bind m (fun a => bind (f a) h).
Proof.
  destruct m as [[a | e] t]; unfold bind; cbn; [| reflexivity].
  destruct (f a) as [[b | e] t']; cbn; [| reflexivity].
  destruct (h b) as [r t'']; cbn. by rewrite app_assoc.
Qed.

Lemma bind_lift_ok {A B} (r : result A) (a : A) (k : A -> M B) :
  r = OK a -> bind (lift r) k = k a.
Proof. intros ->. unfold bind, lift. cbn. by destruct (k a). Qed.

Lemma bind_call_ok {A B} (ev : event) (r : result A) (a : A) (k : A -> M B) :
  r = OK a -> bind (call ev r) k = (outcome (k a), ev :: trace (k a)).
Proof. by intros ->. Qed.

Lemma bind_ext {A B} (m : M A) (k1 k2 : A -> M B) :
  (forall a, k1 a = k2 a) -> bind m k1 = bind m k2.
Proof.
  intros H. destruct m as [[a | e] t]; unfold bind; cbn; [| reflexivity].
  by rewrite H.
Qed.

Lemma bind_lift_OK {A B} (a : A) (k : A -> M B) : bind (lift (OK a)) k = k a.
Proof. unfold bind, lift. cbn. by destruct (k a). Qed.

Lemma bind_lift_Raise {A B} (e : exn) (k : A -> M B) :
  bind (lift (Raise e)) k = raise e.
Proof. reflexivity. Qed.

Lemma bind_ret {A B} (a : A) (k : A -> M B) : bind (ret a) k = k a.
Proof. apply bind_lift_OK. Qed.

Lemma bind_raise {A B} (e : exn) (k : A -> M B) : bind (raise e) k = raise e.
Proof. reflexivity. Qed.

Lemma bind_call_OK {A B} (ev : event) (a : A) (k : A -> M B) :
  bind (call ev (OK a)) k = after [ev] (k a).
Proof. reflexivity. Qed.

Lemma bind_call_Raise {A B} (ev : event) (e : exn) (k : A -> M B) :
  bind (call ev (Raise e)) k = after [ev] (raise e).
Proof. reflexivity. Qed.

Lemma bind_after {A B} (made : list event) (m : M A) (k : A -> M B) :
  bind (after made m) k = after made (bind m k).
Proof.
  destruct m as [[a | e] t]; unfold bind, after; cbn; [| reflexivity].
  by rewrite app_assoc.
Qed.

Lemma outcome_bind {A B} (m : M A) (k : A -> M B) :
  outcome (bind m k) =
    match outcome m with OK a => outcome (k a) | Raise e => Raise e end.
Proof. unfold bind. by destruct (outcome m). Qed.

Lemma outcome_after {A} (made : list event) (m : M A) :
  outcome (after made m) = outcome m.
Proof. reflexivity. Qed.

Lemma trace_after {A} (made : list event) (m : M A) :
  trace (after made m) = made ++ trace m.
Proof. reflexivity. Qed.

Lemma requests_app (t1 t2 : list event) :
  requests (t1 ++ t2) = requests t1 ++ requests t2.
Proof. apply omap_app. Qed.

(** ** Strings *)

Lemma starts_with_spec (x t : pystr) :
  starts_with x t = true <-> exists post, t = x ++ post.
Proof.
  revert t. induction x as [| a x IH]; intros t; cbn.
  - split; [intros _; by exists t | done].
  - destruct t as [| b t]; cbn.
    + split; [done | intros [post H]; discriminate].
    + rewrite andb_true_iff, N.eqb_eq, IH. split.
      * intros [-> [post ->]]. by exists post.
      * intros [post H]. injection H as -> ->. eauto.
Qed.

Lemma contains_spec (x t : pystr) : contains x t = true <-> occurs_in x t.
Proof.
  unfold occurs_in. induction t as [| b t IH]; cbn.
  - rewrite orb_false_r, starts_with_spec. split.
    + intros [post H]. by exists [], post.
    + intros [pre [post H]]. destruct pre; [by exists post |]. discriminate.
  - rewrite orb_true_iff, IH. change (starts_with x (b :: t) = true \/
      (exists pre post, t = pre ++ x ++ post) <->
      exists pre post, b :: t = pre ++ x ++ post).
    rewrite starts_with_spec. split.
    + intros [[post H] | [pre [post H]]].
      * by exists [], post.
      * exists (b :: pre), post. by rewrite H.
    + intros [pre [post H]]. destruct pre as [| c pre].
      * left. by exists post.
      * right. injection H as -> ->. eauto.
Qed.

Lemma occurs_in_middle (pre x post : pystr) : occurs_in x (pre ++ x ++ post).
Proof. by exists pre, post. Qed.

Lemma occurs_in_end (pre x : pystr) : occurs_in x (pre ++ x).
Proof. exists pre, []. by rewrite app_nil_r. Qed.

(** ** ServiceAutoStarter *)

Section StarterHandler.

Import ServiceAutoStarter.

Variable g : globals.
Variable w : World.
Variables event context response : pyval.

Hypothesis client_made : client_answer w (lit "ecs") (REGION g) = OK tt.
Hypothesis described :
  describe_services_answer w (REGION g) (CLUSTER g) [SERVICE g] = OK response.

(** The handler after a successful [describe_services], by the value read
    from the response. *)
Lemma lambda_handler_reported (desired : pyval) :
  getpath response desired_path = OK desired ->
  lambda_handler g w event context =
    if eq_int desired 0 then
      (match update_service_answer w (REGION g) (CLUSTER g) (SERVICE g) 1 with
       | OK _ => OK tt
       | Raise e => Raise e
       end,
       [EvClient (lit "ecs") (REGION g);
        EvDescribeServices (CLUSTER g) [SERVICE g];
        EvUpdateService (CLUSTER g) (SERVICE g) 1] ++
       match update_service_answer w (REGION g) (CLUSTER g) (SERVICE g) 1 with
       | OK _ => [EvPrint (lit "Updated desiredCount to 1")]
       | Raise _ => []
       end)
    else
      (OK tt,
       [EvClient (lit "ecs") (REGION g);
        EvDescribeServices (CLUSTER g) [SERVICE g];
        EvPrint (lit "desiredCount already at 1")]).
Proof.
  intros Hd. unfold lambda_handler.
  rewrite (bind_call_ok _ _ tt) by exact client_made.
  rewrite (bind_call_ok _ _ response) by exact described.
  rewrite (bind_lift_ok _ desired) by exact Hd.
  destruct (eq_int desired 0); [| reflexivity].
  destruct (update_service_answer w (REGION g) (CLUSTER g) (SERVICE g) 1);
    reflexivity.
Qed.

End StarterHandler.

(** C1. When [describe_services] reports [desiredCount = 0] for the
    configured cluster and service, the handler makes exactly one
    [update_service] call, with [desiredCount = 1]; when it reports a count
    above zero, the handler makes no [update_service] call. *)
Theorem starter_updates_exactly_when_zero
    (g : ServiceAutoStarter.globals) (w : World)
    (event context response : pyval) (d : Z) :
  client_answer w (lit "ecs") (ServiceAutoStarter.REGION g) = OK tt ->
  describe_services_answer w (ServiceAutoStarter.REGION g)
    (ServiceAutoStarter.CLUSTER g) [ServiceAutoStarter.SERVICE g] = OK response ->
  getpath response ServiceAutoStarter.desired_path = OK (PInt d) ->
  (d = 0 ->
   updates (trace (ServiceAutoStarter.lambda_handler g w event context)) =
     [(ServiceAutoStarter.CLUSTER g, ServiceAutoStarter.SERVICE g, 1)]) /\
  (0 < d ->
   updates (trace (ServiceAutoStarter.lambda_handler g w event context)) = []).
Proof.
  intros Hc Hr Hd.
  rewrite (lambda_handler_reported g w event context response Hc Hr _ Hd).
  split; intros H; cbn [eq_int].
  - subst d. cbn.
    by destruct (update_service_answer w _ _ _ 1).
  - destruct (Z.eqb_spec d 0); [lia | reflexivity].
Qed.

Lemma starter_updates_exactly_when_zero_witness :
  updates (trace (ServiceAutoStarter.lambda_handler Sample.starter_globals
                    (Sample.world (PInt 0) Sample.no_content) PNone PNone)) =
    [(Some (lit "minecraft"), Some (lit "minecraft-server"), 1)] /\
  updates (trace (ServiceAutoStarter.lambda_handler Sample.starter_globals
                    (Sample.world (PInt 100) Sample.no_content) PNone PNone)) = [].
Proof.
  split.
  - apply (starter_updates_exactly_when_zero Sample.starter_globals
             (Sample.world (PInt 0) Sample.no_content) PNone PNone
             (Sample.describe_response (PInt 0)) 0); reflexivity.
  - apply (starter_updates_exactly_when_zero Sample.starter_globals
             (Sample.world (PInt 100) Sample.no_content) PNone PNone
             (Sample.describe_response (PInt 100)) 100); reflexivity.
Defined.

(** C9. For every reported [desiredCount] above zero the handler prints the
    one fixed line "desiredCount already at 1" and nothing else, whatever the
    count is (2 and 100 included): the text does not depend on the count. *)
Theorem starter_log_line_ignores_count
    (g : ServiceAutoStarter.globals) (w : World)
    (event context response : pyval) (d : Z) :
  client_answer w (lit "ecs") (ServiceAutoStarter.REGION g) = OK tt ->
  describe_services_answer w (ServiceAutoStarter.REGION g)
    (ServiceAutoStarter.CLUSTER g) [ServiceAutoStarter.SERVICE g] = OK response ->
  getpath response ServiceAutoStarter.desired_path = OK (PInt d) ->
  0 < d ->
  printed (trace (ServiceAutoStarter.lambda_handler g w event context)) =
    [lit "desiredCount already at 1"] /\
  outcome (ServiceAutoStarter.lambda_handler g w event context) = OK tt.
Proof.
  intros Hc Hr Hd Hpos.
  rewrite (lambda_handler_reported g w event context response Hc Hr _ Hd).
  cbn [eq_int]. destruct (Z.eqb_spec d 0); [lia |]. by split.
Qed.

Lemma starter_log_line_ignores_count_witness :
  printed (trace (ServiceAutoStarter.lambda_handler Sample.starter_globals
                    (Sample.world (PInt 2) Sample.no_content) PNone PNone)) =
    [lit "desiredCount already at 1"] /\
  printed (trace (ServiceAutoStarter.lambda_handler Sample.starter_globals
                    (Sample.world (PInt 100) Sample.no_content) PNone PNone)) =
    [lit "desiredCount already at 1"].
Proof.
  split.
  - apply (starter_log_line_ignores_count Sample.starter_globals
             (Sample.world (PInt 2) Sample.no_content) PNone PNone
             (Sample.describe_response (PInt 2)) 2); [reflexivity .. | lia].
  - apply (starter_log_line_ignores_count Sample.starter_globals
             (Sample.world (PInt 100) Sample.no_content) PNone PNone
             (Sample.describe_response (PInt 100)) 100); [reflexivity .. | lia].
Defined.

(** C8. The startup check of ServiceAutoStarter never fires. [REGION],
    [CLUSTER] and [SERVICE] are read with a default, so none of them is
    [None], the guard of the [ValueError] is false in every environment and
    the module body succeeds whatever variables are set. *)
Theorem starter_startup_check_unreachable (environ : gmap pystr pystr) :
  ServiceAutoStarter.missing (ServiceAutoStarter.read_environ environ) = false /\
  ServiceAutoStarter.module_init environ =
    OK (ServiceAutoStarter.read_environ environ).
Proof.
  assert (Hm : ServiceAutoStarter.missing
                 (ServiceAutoStarter.read_environ environ) = false).
  { unfold ServiceAutoStarter.missing, ServiceAutoStarter.read_environ,
      environ_get. cbn.
    destruct (environ !! lit "REGION"), (environ !! lit "CLUSTER"),
      (environ !! lit "SERVICE"); reflexivity. }
  split; [exact Hm |].
  unfold ServiceAutoStarter.module_init. by rewrite Hm.
Qed.

(** C2. With [WEBHOOK] unset, the process start of WebhookNotifier fails
    with the configuration error before any invocation logic runs (no call
    is made), while the process start of ServiceAutoStarter succeeds and
    leaves its [WEBHOOK] at [None]. *)
Theorem webhook_unset_startup (environ : gmap pystr pystr) (w : World)
    (event context : pyval) :
  environ !! lit "WEBHOOK" = None ->
  WebhookNotifier.module_init environ =
    Raise (ValueError (lit "Missing environment variables")) /\
  WebhookNotifier.cold_start environ w event context =
    (Raise (ValueError (lit "Missing environment variables")), []) /\
  ServiceAutoStarter.module_init environ =
    OK (ServiceAutoStarter.read_environ environ) /\
  ServiceAutoStarter.WEBHOOK (ServiceAutoStarter.read_environ environ) = None.
Proof.
  intros Hunset.
  assert (Hn : WebhookNotifier.module_init environ =
               Raise (ValueError (lit "Missing environment variables"))).
  { unfold WebhookNotifier.module_init, WebhookNotifier.read_environ,
      environ_get. by rewrite Hunset. }
  split; [exact Hn |]. split.
  - unfold WebhookNotifier.cold_start. by rewrite Hn.
  - split.
    + unfold ServiceAutoStarter.module_init, ServiceAutoStarter.missing,
        ServiceAutoStarter.read_environ, environ_get.
      cbn [ServiceAutoStarter.REGION ServiceAutoStarter.CLUSTER
           ServiceAutoStarter.SERVICE].
      destruct (environ !! lit "REGION"), (environ !! lit "CLUSTER"),
        (environ !! lit "SERVICE"); reflexivity.
    + unfold ServiceAutoStarter.read_environ, environ_get.
      cbn [ServiceAutoStarter.WEBHOOK]. by rewrite Hunset.
Qed.

Lemma webhook_unset_startup_witness :
  WebhookNotifier.cold_start ∅ (Sample.world (PInt 0) Sample.no_content)
    Sample.hello_event PNone =
    (Raise (ValueError (lit "Missing environment variables")), []) /\
  ServiceAutoStarter.module_init ∅ = OK Sample.starter_globals.
Proof.
  destruct (webhook_unset_startup ∅ (Sample.world (PInt 0) Sample.no_content)
              Sample.hello_event PNone) as (_ & Hcold & Hstart & _).
  - reflexivity.
  - split; [exact Hcold | exact Hstart].
Defined.

(** C2, as stated, fails for ServiceAutoStarter: in the empty environment
    [WEBHOOK] is unset, yet the module body succeeds and the invocation runs
    to its end. *)
Lemma starter_starts_without_webhook :
  (∅ : gmap pystr pystr) !! lit "WEBHOOK" = None /\
  ServiceAutoStarter.module_init ∅ =
    OK {| ServiceAutoStarter.REGION := Some (lit "us-west-2");
          ServiceAutoStarter.CLUSTER := Some (lit "minecraft");
          ServiceAutoStarter.SERVICE := Some (lit "minecraft-server");
          ServiceAutoStarter.WEBHOOK := None |} /\
  ServiceAutoStarter.cold_start ∅ (Sample.world (PInt 0) Sample.no_content)
    PNone PNone =
    (OK tt,
     [EvClient (lit "ecs") (Some (lit "us-west-2"));
      EvDescribeServices (Some (lit "minecraft")) [Some (lit "minecraft-server")];
      EvUpdateService (Some (lit "minecraft")) (Some (lit "minecraft-server")) 1;
      EvPrint (lit "Updated desiredCount to 1")]).
Proof. repeat split; vm_compute; reflexivity. Qed.

(** ** Subscription *)

Lemma getitem_raises_lookup_error (v : pyval) (k : subscript) (e : exn) :
  getitem v k = Raise e -> lookup_error e = true.
Proof.
  destruct v, k; cbn; intros H;
    repeat match type of H with
           | match ?x with _ => _ end = _ => destruct x
           end;
    by inversion H.
Qed.

Lemma getpath_raises_lookup_error (ks : list subscript) (v : pyval) (e : exn) :
  getpath v ks = Raise e -> lookup_error e = true.
Proof.
  revert v. induction ks as [| k ks IH]; intros v; cbn; [done |].
  destruct (getitem v k) as [x | e'] eqn:Hk.
  - apply IH.
  - intros [= <-]. by eapply getitem_raises_lookup_error.
Qed.

(** A [dict] without the key [Records] fails the lookup with a [KeyError]
    for that key. *)
Lemma getpath_without_records (entries : list (pystr * pyval)) :
  dict_get entries (lit "Records") = None ->
  getpath (PDict entries) WebhookNotifier.message_path =
    Raise (KeyError (PStr (lit "Records"))).
Proof. intros H. cbn. by rewrite H. Qed.

(** ** WebhookNotifier *)

Lemma trace_status_check (res : HTTPResponse) :
  trace (WebhookNotifier.status_check res) = [].
Proof.
  unfold WebhookNotifier.status_check.
  destruct (negb (status res =? 204)); [| reflexivity].
  by destruct (decode (read res)).
Qed.

Section NotifierHandler.

Import WebhookNotifier.

Variable g : globals.
Variable w : World.
Variables event context : pyval.

(** The handler is the exchange followed by the status check. *)
Lemma notify_decomposed :
  notifyDiscordWebhook g w event context = bind (exchange g w event) status_check.
Proof.
  unfold notifyDiscordWebhook, exchange. fold status_check.
  repeat (rewrite bind_assoc; apply bind_ext; intros ?).
  reflexivity.
Qed.

(** Before the event is read: the URL is parsed and the connection made. *)
Lemma notify_lookup_fails (e : exn) :
  getpath event message_path = Raise e ->
  notifyDiscordWebhook g w event context =
    match urlparse w (WEBHOOK g) with
    | Raise e' => raise e'
    | OK u =>
        after [EvHTTPSConnection (netloc u)]
          match connection_answer w (netloc u) with
          | Raise e' => raise e'
          | OK _ => raise e
          end
    end.
Proof.
  intros Hlookup. unfold notifyDiscordWebhook.
  destruct (urlparse w (WEBHOOK g)) as [u | e']; [| reflexivity].
  rewrite bind_lift_OK. unfold HTTPSConnection. rewrite bind_assoc.
  destruct (connection_answer w (netloc u)) as [[] | e'].
  - by rewrite bind_call_OK, bind_ret, Hlookup.
  - by rewrite bind_call_Raise.
Qed.

Variable webhook : pystr.
Variable c : ParseResult pystr.
Hypothesis configured : WEBHOOK g = Some webhook.
Hypothesis parsed : urlparse_str w webhook = OK c.

(** The exchange with a configured URL that parses, step by step. *)
Lemma exchange_run :
  exchange g w event =
    after [EvHTTPSConnection (PStr (netloc c))]
      match connection_answer w (PStr (netloc c)) with
      | Raise e => raise e
      | OK _ =>
          match getpath event message_path with
          | Raise e => raise e
          | OK v =>
              match json_dumps (PDict [(lit "content", v)]) with
              | Raise e => raise e
              | OK body =>
                  after [EvRequest (request_for c body)]
                    match request_answer w (request_for c body) with
                    | Raise e => raise e
                    | OK _ =>
                        call (EvGetResponse (request_for c body))
                          (getresponse_answer w (request_for c body))
                    end
              end
          end
      end.
Proof.
  unfold exchange, urlparse. rewrite configured, parsed, bind_lift_OK.
  cbn [netloc path query]. unfold HTTPSConnection.
  rewrite bind_assoc.
  destruct (connection_answer w (PStr (netloc c))) as [[] | e].
  2: { by rewrite bind_call_Raise. }
  rewrite bind_call_OK, bind_ret. f_equal.
  destruct (getpath event message_path) as [v | e]; [| reflexivity].
  rewrite bind_lift_OK. cbn [py_add]. rewrite bind_lift_OK. cbn [py_add].
  rewrite bind_lift_OK.
  destruct (json_dumps (PDict [(lit "content", v)])) as [body | e]; [| reflexivity].
  rewrite bind_lift_OK. unfold conn_request. rewrite bind_assoc.
  rewrite <- app_assoc. fold (request_for c body).
  destruct (request_answer w (request_for c body)) as [[] | e].
  2: { by rewrite bind_call_Raise. }
  rewrite bind_call_OK, bind_ret. reflexivity.
Qed.

(** The requests of an invocation: none, or the one built from the parsed
    URL and the encoded message. *)
Lemma notify_requests :
  requests (trace (notifyDiscordWebhook g w event context)) =
    match connection_answer w (PStr (netloc c)),
          getpath event message_path with
    | OK _, OK v =>
        match json_dumps (PDict [(lit "content", v)]) with
        | OK body => [request_for c body]
        | Raise _ => []
        end
    | _, _ => []
    end.
Proof.
  rewrite notify_decomposed, exchange_run.
  destruct (connection_answer w (PStr (netloc c))) as [[] | e]; [| reflexivity].
  destruct (getpath event message_path) as [v | e]; [| reflexivity].
  destruct (json_dumps (PDict [(lit "content", v)])) as [body | e]; [| reflexivity].
  destruct (request_answer w (request_for c body)) as [[] | e]; [| reflexivity].
  rewrite !bind_after, !trace_after, !requests_app.
  destruct (getresponse_answer w (request_for c body)) as [res | e];
    [| reflexivity].
  rewrite bind_call_OK, trace_after, requests_app, trace_status_check.
  reflexivity.
Qed.


End NotifierHandler.

(** The status check where it does what it is written to do. For every
    response the notifier receives, the handler completes without error
    exactly when the status is 204. For any other status it raises; when the
    body is valid UTF-8, what it raises is the [ValueError] whose text
    contains the status code and the decoded body. *)
Theorem notifier_status_check
    (g : WebhookNotifier.globals) (w : World) (event context : pyval)
    (res : HTTPResponse) :
  outcome (WebhookNotifier.exchange g w event) = OK res ->
  (outcome (WebhookNotifier.notifyDiscordWebhook g w event context) = OK tt <->
   status res = 204) /\
  (status res <> 204 ->
   exists e, outcome (WebhookNotifier.notifyDiscordWebhook g w event context) =
             Raise e) /\
  (status res <> 204 ->
   forall text, decode (read res) = OK text ->
   exists msg,
     outcome (WebhookNotifier.notifyDiscordWebhook g w event context) =
       Raise (ValueError msg) /\
     exn_str (ValueError msg) = Some msg /\
     occurs_in (str_int (status res)) msg /\
     occurs_in text msg).
Proof.
  intros Hres.
  rewrite notify_decomposed, outcome_bind, Hres.
  unfold WebhookNotifier.status_check.
  destruct (Z.eqb_spec (status res) 204) as [H204 | Hother]; cbn [negb].
  - split; [done |]. split; intros H; by destruct H.
  - split.
    { split; [| done]. destruct (decode (read res)); cbn; discriminate. }
    split.
    { intros _. destruct (decode (read res)) as [text | e]; cbn; eauto. }
    intros _ text Htext. rewrite Htext, bind_lift_OK.
    eexists. split; [reflexivity |]. split; [reflexivity |]. split.
    + apply occurs_in_middle.
    + rewrite !app_assoc. apply occurs_in_end.
Qed.

Lemma notifier_status_check_witness :
  exists msg,
    outcome (WebhookNotifier.notifyDiscordWebhook Sample.notifier_globals
               (Sample.world (PInt 0) Sample.server_error)
               Sample.hello_event PNone) = Raise (ValueError msg) /\
    exn_str (ValueError msg) = Some msg /\
    occurs_in (lit "500") msg /\
    occurs_in (lit "server error") msg.
Proof.
  destruct (notifier_status_check Sample.notifier_globals
              (Sample.world (PInt 0) Sample.server_error)
              Sample.hello_event PNone Sample.server_error)
    as (_ & _ & Htext).
  - reflexivity.
  - apply Htext; [discriminate | reflexivity].
Defined.

(** C3. The error for a status other than 204 is meant to carry the status
    code and the response body, and the handler misses that on a body that
    is not valid UTF-8. The f-string that builds the text of the
    [ValueError] decodes the body strictly, so for status 500 with the one
    byte [0xff] as body the decoder's [UnicodeDecodeError] is raised before
    the [ValueError] exists, and "500" does not occur in its text. *)
Lemma notifier_garbled_body_hides_status :
  outcome (WebhookNotifier.exchange Sample.notifier_globals
             (Sample.world (PInt 0) Sample.garbled_error) Sample.hello_event) =
    OK Sample.garbled_error /\
  status Sample.garbled_error = 500 /\
  outcome (WebhookNotifier.notifyDiscordWebhook Sample.notifier_globals
             (Sample.world (PInt 0) Sample.garbled_error)
             Sample.hello_event PNone) =
    Raise (UnicodeDecodeError utf8 (read Sample.garbled_error) 0 1
             (lit "invalid start byte")) /\
  exn_str (UnicodeDecodeError utf8 (read Sample.garbled_error) 0 1
             (lit "invalid start byte")) =
    Some (lit "'utf-8' codec can't decode byte 0xff in position 0: invalid start byte") /\
  ~ occurs_in (str_int 500)
      (lit "'utf-8' codec can't decode byte 0xff in position 0: invalid start byte").
Proof.
  repeat split; try (vm_compute; reflexivity).
  rewrite <- contains_spec. vm_compute. discriminate.
Qed.

(** C4. For every event whose first record carries the message string [m],
    with a configured URL that parses and a connection that is made, the
    notifier sends one POST: to the host and the path and query of the URL,
    with the header [Content-Type: application/json], and with the JSON
    encoding of the object whose single field ["content"] carries [m] as
    body. *)
Theorem notifier_posts_message
    (g : WebhookNotifier.globals) (w : World) (event context : pyval)
    (webhook : pystr) (c : ParseResult pystr) (m : pystr) :
  WebhookNotifier.WEBHOOK g = Some webhook ->
  urlparse_str w webhook = OK c ->
  connection_answer w (PStr (netloc c)) = OK tt ->
  getpath event WebhookNotifier.message_path = OK (PStr m) ->
  json_dumps (PDict [(lit "content", PStr m)]) = OK (content_body m) /\
  requests (trace (WebhookNotifier.notifyDiscordWebhook g w event context)) =
    [{| host := PStr (netloc c);
        method := lit "POST";
        url := PStr (path c ++ lit "?" ++ query c);
        body := content_body m;
        headers := [(lit "Content-Type", lit "application/json")] |}].
Proof.
  intros Hg Hc Hconn Hm. split; [reflexivity |].
  rewrite (notify_requests g w event context webhook c Hg Hc), Hconn, Hm.
  reflexivity.
Qed.

Lemma notifier_posts_message_witness :
  requests (trace (WebhookNotifier.notifyDiscordWebhook Sample.notifier_globals
                     (Sample.world (PInt 0) Sample.no_content)
                     Sample.hello_event PNone)) =
    [{| host := PStr (lit "discord.com");
        method := lit "POST";
        url := PStr (lit "/api/webhooks/1/abc?");
        body := lit "{" ++ [QUOTE] ++ lit "content" ++ [QUOTE] ++ lit ": " ++
                [QUOTE] ++ lit "hello" ++ [QUOTE] ++ lit "}";
        headers := [(lit "Content-Type", lit "application/json")] |}].
Proof.
  apply (notifier_posts_message Sample.notifier_globals
           (Sample.world (PInt 0) Sample.no_content) Sample.hello_event PNone
           Sample.hook Sample.hook_parts (lit "hello")); reflexivity.
Defined.

(** C5. For every event that does not hold the message at
    [Records[0].Sns.Message] (an event without [Records] among them), the
    notifier fails and sends no request; once the URL is parsed and the
    connection made, the failure is the unhandled error of the lookup
    itself: a [KeyError], an [IndexError] or a [TypeError]. *)
Theorem notifier_malformed_event
    (g : WebhookNotifier.globals) (w : World) (event context : pyval) (e : exn) :
  getpath event WebhookNotifier.message_path = Raise e ->
  lookup_error e = true /\
  requests (trace (WebhookNotifier.notifyDiscordWebhook g w event context)) = [] /\
  (exists e', outcome (WebhookNotifier.notifyDiscordWebhook g w event context) =
              Raise e') /\
  (forall u, urlparse w (WebhookNotifier.WEBHOOK g) = OK u ->
             connection_answer w (netloc u) = OK tt ->
             outcome (WebhookNotifier.notifyDiscordWebhook g w event context) =
               Raise e).
Proof.
  intros Hlookup. split; [by eapply getpath_raises_lookup_error |].
  rewrite (notify_lookup_fails g w event context e Hlookup).
  destruct (urlparse w (WebhookNotifier.WEBHOOK g)) as [u | e'].
  - destruct (connection_answer w (netloc u)) as [[] | e'] eqn:Hconn.
    + split; [reflexivity |]. split; [by exists e |].
      intros u' _ _. reflexivity.
    + split; [reflexivity |]. split; [by exists e' |].
      intros u' [= <-] H'. congruence.
  - split; [reflexivity |]. split; [by exists e' |].
    intros u' H'. discriminate.
Qed.

Lemma notifier_malformed_event_witness :
  requests (trace (WebhookNotifier.notifyDiscordWebhook Sample.notifier_globals
                     (Sample.world (PInt 0) Sample.no_content)
                     Sample.no_records_event PNone)) = [] /\
  outcome (WebhookNotifier.notifyDiscordWebhook Sample.notifier_globals
             (Sample.world (PInt 0) Sample.no_content)
             Sample.no_records_event PNone) =
    Raise (KeyError (PStr (lit "Records"))).
Proof.
  destruct (notifier_malformed_event Sample.notifier_globals
              (Sample.world (PInt 0) Sample.no_content)
              Sample.no_records_event PNone (KeyError (PStr (lit "Records"))))
    as (_ & Hnone & _ & Hraise).
  - apply getpath_without_records. reflexivity.
  - split; [exact Hnone |]. eapply Hraise; reflexivity.
Defined.



(** C10. Two events that hold the same string at [Records[0].Sns.Message]
    make the notifier behave the same under one configuration: the same
    calls with the same requests (target, headers and body) and the same
    outcome, whatever else the events hold. *)
Theorem notifier_depends_on_message_only
    (g : WebhookNotifier.globals) (w : World)
    (event1 event2 context1 context2 : pyval) (m : pystr) :
  getpath event1 WebhookNotifier.message_path = OK (PStr m) ->
  getpath event2 WebhookNotifier.message_path = OK (PStr m) ->
  requests (trace (WebhookNotifier.notifyDiscordWebhook g w event1 context1)) =
    requests (trace (WebhookNotifier.notifyDiscordWebhook g w event2 context2)) /\
  WebhookNotifier.notifyDiscordWebhook g w event1 context1 =
    WebhookNotifier.notifyDiscordWebhook g w event2 context2.
Proof.
  intros H1 H2.
  assert (Heq : WebhookNotifier.notifyDiscordWebhook g w event1 context1 =
                WebhookNotifier.notifyDiscordWebhook g w event2 context2).
  { unfold WebhookNotifier.notifyDiscordWebhook.
    apply bind_ext; intros u. apply bind_ext; intros conn.
    by rewrite H1, H2. }
  split; [by rewrite Heq | exact Heq].
Qed.

Lemma notifier_depends_on_message_only_witness :
  requests (trace (WebhookNotifier.notifyDiscordWebhook Sample.notifier_globals
                     (Sample.world (PInt 0) Sample.no_content)
                     Sample.hello_event PNone)) =
  requests (trace (WebhookNotifier.notifyDiscordWebhook Sample.notifier_globals
                     (Sample.world (PInt 0) Sample.no_content)
                     Sample.hello_event_full (PInt 1))).
Proof.
  apply (notifier_depends_on_message_only Sample.notifier_globals
           (Sample.world (PInt 0) Sample.no_content)
           Sample.hello_event Sample.hello_event_full PNone (PInt 1)
           (lit "hello")); reflexivity.
Defined.

(** ** The notification function of ServiceAutoStarter *)

Lemma getpath_start_event :
  getpath Sample.start_event WebhookNotifier.message_path =
    OK (PStr ServiceAutoStarter.message).
Proof. vm_compute. reflexivity. Qed.

(** The function is the notifier's handler on the event that carries the
    fixed message. *)
Lemma starter_notify_as_notifier (g : ServiceAutoStarter.globals) (w : World)
    (context : pyval) :
  ServiceAutoStarter.notifyDiscordWebhook g w =
    WebhookNotifier.notifyDiscordWebhook
      {| WebhookNotifier.WEBHOOK := ServiceAutoStarter.WEBHOOK g |} w
      Sample.start_event context.
Proof.
  unfold ServiceAutoStarter.notifyDiscordWebhook,
    WebhookNotifier.notifyDiscordWebhook.
  cbn [WebhookNotifier.WEBHOOK].
  apply bind_ext; intros u. apply bind_ext; intros conn.
  by rewrite getpath_start_event, bind_lift_OK.
Qed.

(** The handler of ServiceAutoStarter never sends a request. *)
Lemma lambda_handler_no_request (g : ServiceAutoStarter.globals) (w : World)
    (event context : pyval) :
  requests (trace (ServiceAutoStarter.lambda_handler g w event context)) = [].
Proof.
  unfold ServiceAutoStarter.lambda_handler.
  destruct (client_answer w (lit "ecs") (ServiceAutoStarter.REGION g))
    as [[] | e]; [| reflexivity].
  rewrite bind_call_OK, trace_after, requests_app.
  destruct (describe_services_answer w _ _ _) as [response | e]; [| reflexivity].
  rewrite bind_call_OK, trace_after, requests_app.
  destruct (getpath response ServiceAutoStarter.desired_path) as [desired | e];
    [| reflexivity].
  rewrite bind_lift_OK.
  destruct (eq_int desired 0); [| reflexivity].
  by destruct (update_service_answer w _ _ _ 1).
Qed.

(** C7. The notification function of ServiceAutoStarter is not reached from
    its handler. It follows the notifier's protocol on the fixed message
    "attempting to Start Minecraft": with a configured URL it sends that
    message as the [content] of one POST and checks the response for 204.
    With [WEBHOOK] absent nothing checks for it: the function goes on to
    make the connection from the empty parse and then fails with an
    unhandled error, before any request. *)
Theorem starter_notify_fixed_message
    (g : ServiceAutoStarter.globals) (w : World) (event context : pyval) :
  requests (trace (ServiceAutoStarter.lambda_handler g w event context)) = [] /\
  ServiceAutoStarter.notifyDiscordWebhook g w =
    WebhookNotifier.notifyDiscordWebhook
      {| WebhookNotifier.WEBHOOK := ServiceAutoStarter.WEBHOOK g |} w
      Sample.start_event context /\
  (forall webhook c,
     ServiceAutoStarter.WEBHOOK g = Some webhook ->
     urlparse_str w webhook = OK c ->
     connection_answer w (PStr (netloc c)) = OK tt ->
     requests (trace (ServiceAutoStarter.notifyDiscordWebhook g w)) =
       [{| host := PStr (netloc c);
           method := lit "POST";
           url := PStr (path c ++ lit "?" ++ query c);
           body := content_body (lit "attempting to Start Minecraft");
           headers := [(lit "Content-Type", lit "application/json")] |}]) /\
  (ServiceAutoStarter.WEBHOOK g = None ->
   trace (ServiceAutoStarter.notifyDiscordWebhook g w) =
     [EvHTTPSConnection (PBytes [])] /\
   exists e, outcome (ServiceAutoStarter.notifyDiscordWebhook g w) = Raise e).
Proof.
  split; [apply lambda_handler_no_request |].
  split; [apply starter_notify_as_notifier |].
  split.
  - intros webhook c Hg Hc Hconn.
    rewrite (starter_notify_as_notifier g w PNone).
    rewrite (notify_requests
               {| WebhookNotifier.WEBHOOK := ServiceAutoStarter.WEBHOOK g |}
               w Sample.start_event PNone webhook c Hg Hc).
    rewrite Hconn, getpath_start_event. reflexivity.
  - intros Hnone. unfold ServiceAutoStarter.notifyDiscordWebhook, urlparse.
    rewrite Hnone, bind_lift_OK. cbn [netloc path query].
    unfold HTTPSConnection. rewrite bind_assoc.
    destruct (connection_answer w (PBytes [])) as [[] | e].
    + rewrite bind_call_OK, bind_ret. cbn [py_add].
      rewrite bind_lift_Raise. split; [reflexivity | eauto].
    + rewrite bind_call_Raise. split; [reflexivity | eauto].
Qed.

Lemma starter_notify_fixed_message_witness :
  trace (ServiceAutoStarter.notifyDiscordWebhook Sample.starter_globals
           (Sample.world (PInt 0) Sample.no_content)) =
    [EvHTTPSConnection (PBytes [])] /\
  outcome (ServiceAutoStarter.notifyDiscordWebhook Sample.starter_globals
             (Sample.world (PInt 0) Sample.no_content)) =
    Raise (TypeError (lit "can't concat str to bytes")) /\
  requests (trace (ServiceAutoStarter.notifyDiscordWebhook
                     {| ServiceAutoStarter.REGION := None;
                        ServiceAutoStarter.CLUSTER := None;
                        ServiceAutoStarter.SERVICE := None;
                        ServiceAutoStarter.WEBHOOK := Some Sample.hook |}
                     (Sample.world (PInt 0) Sample.no_content))) =
    [{| host := PStr (lit "discord.com");
        method := lit "POST";
        url := PStr (lit "/api/webhooks/1/abc?");
        body := lit "{" ++ [QUOTE] ++ lit "content" ++ [QUOTE] ++ lit ": " ++
                [QUOTE] ++ lit "attempting to Start Minecraft" ++ [QUOTE] ++
                lit "}";
        headers := [(lit "Content-Type", lit "application/json")] |}].
Proof.
  destruct (starter_notify_fixed_message Sample.starter_globals
              (Sample.world (PInt 0) Sample.no_content) PNone PNone)
    as (_ & _ & _ & Habsent).
  destruct (starter_notify_fixed_message
              {| ServiceAutoStarter.REGION := None;
                 ServiceAutoStarter.CLUSTER := None;
                 ServiceAutoStarter.SERVICE := None;
                 ServiceAutoStarter.WEBHOOK := Some Sample.hook |}
              (Sample.world (PInt 0) Sample.no_content) PNone PNone)
    as (_ & _ & Hsent & _).
  destruct (Habsent eq_refl) as [Htrace _].
  split; [exact Htrace |]. split; [reflexivity |].
  apply (Hsent Sample.hook Sample.hook_parts); reflexivity.
Defined.

(** * Further properties of the handlers *)

(** ** ServiceAutoStarter, call by call *)

Lemma updates_app (t1 t2 : list event) :
  updates (t1 ++ t2) = updates t1 ++ updates t2.
Proof. apply omap_app. Qed.

Lemma printed_app (t1 t2 : list event) :
  printed (t1 ++ t2) = printed t1 ++ printed t2.
Proof. apply omap_app. Qed.

(** The handler in any world: each call, and what its answer leads to. *)
Lemma lambda_handler_run (g : ServiceAutoStarter.globals) (w : World)
    (event context : pyval) :
  ServiceAutoStarter.lambda_handler g w event context =
    after [EvClient (lit "ecs") (ServiceAutoStarter.REGION g)]
      match client_answer w (lit "ecs") (ServiceAutoStarter.REGION g) with
      | Raise e => raise e
      | OK _ =>
          after [EvDescribeServices (ServiceAutoStarter.CLUSTER g)
                   [ServiceAutoStarter.SERVICE g]]
            match describe_services_answer w (ServiceAutoStarter.REGION g)
                    (ServiceAutoStarter.CLUSTER g) [ServiceAutoStarter.SERVICE g] with
            | Raise e => raise e
            | OK response =>
                match getpath response ServiceAutoStarter.desired_path with
                | Raise e => raise e
                | OK desired =>
                    if eq_int desired 0 then
                      after [EvUpdateService (ServiceAutoStarter.CLUSTER g)
                               (ServiceAutoStarter.SERVICE g) 1]
                        match update_service_answer w (ServiceAutoStarter.REGION g)
                                (ServiceAutoStarter.CLUSTER g)
                                (ServiceAutoStarter.SERVICE g) 1 with
                        | Raise e => raise e
                        | OK _ => print (lit "Updated desiredCount to 1")
                        end
                    else print (lit "desiredCount already at 1")
                end
            end
      end.
Proof.
  unfold ServiceAutoStarter.lambda_handler.
  destruct (client_answer w _ _) as [[] | e]; [| reflexivity].
  rewrite bind_call_OK. f_equal.
  destruct (describe_services_answer w _ _ _) as [response | e]; [| reflexivity].
  rewrite bind_call_OK. f_equal.
  destruct (getpath response _) as [desired | e]; [| reflexivity].
  rewrite bind_lift_OK.
  destruct (eq_int desired 0); [| reflexivity].
  by destruct (update_service_answer w _ _ _ 1).
Qed.

(** X1. Whatever the world answers and whatever the event holds, the handler
    makes at most one [update_service] call, and that call is for the
    configured cluster and service with [desiredCount = 1]: it never sets
    another count and never scales down. *)
Theorem starter_only_ever_sets_one
    (g : ServiceAutoStarter.globals) (w : World) (event context : pyval) :
  updates (trace (ServiceAutoStarter.lambda_handler g w event context)) = [] \/
  updates (trace (ServiceAutoStarter.lambda_handler g w event context)) =
    [(ServiceAutoStarter.CLUSTER g, ServiceAutoStarter.SERVICE g, 1)].
Proof.
  rewrite lambda_handler_run.
  destruct (client_answer w _ _) as [[] | e]; [| by left].
  destruct (describe_services_answer w _ _ _) as [response | e]; [| by left].
  destruct (getpath response _) as [desired | e]; [| by left].
  destruct (eq_int desired 0); [| by left].
  right. by destruct (update_service_answer w _ _ _ 1).
Qed.

(** X2. A failure of [boto3.client] or of [describe_services] reaches the
    caller unchanged: the handler stops at the failed call, makes no
    [update_service] call and prints nothing. *)
Theorem starter_upstream_failure
    (g : ServiceAutoStarter.globals) (w : World) (event context : pyval)
    (e : exn) :
  (client_answer w (lit "ecs") (ServiceAutoStarter.REGION g) = Raise e ->
   ServiceAutoStarter.lambda_handler g w event context =
     (Raise e, [EvClient (lit "ecs") (ServiceAutoStarter.REGION g)])) /\
  (client_answer w (lit "ecs") (ServiceAutoStarter.REGION g) = OK tt ->
   describe_services_answer w (ServiceAutoStarter.REGION g)
     (ServiceAutoStarter.CLUSTER g) [ServiceAutoStarter.SERVICE g] = Raise e ->
   ServiceAutoStarter.lambda_handler g w event context =
     (Raise e,
      [EvClient (lit "ecs") (ServiceAutoStarter.REGION g);
       EvDescribeServices (ServiceAutoStarter.CLUSTER g)
         [ServiceAutoStarter.SERVICE g]])).
Proof.
  split.
  - intros Hc. by rewrite lambda_handler_run, Hc.
  - intros Hc Hd. by rewrite lambda_handler_run, Hc, Hd.
Qed.

Lemma starter_upstream_failure_witness :
  ServiceAutoStarter.lambda_handler Sample.starter_globals
    (Fault.client_fails Fault.throttled (Sample.world (PInt 0) Sample.no_content))
    PNone PNone =
    (Raise Fault.throttled, [EvClient (lit "ecs") (Some (lit "us-west-2"))]) /\
  ServiceAutoStarter.lambda_handler Sample.starter_globals
    (Fault.describe_fails Fault.throttled (Sample.world (PInt 0) Sample.no_content))
    PNone PNone =
    (Raise Fault.throttled,
     [EvClient (lit "ecs") (Some (lit "us-west-2"));
      EvDescribeServices (Some (lit "minecraft")) [Some (lit "minecraft-server")]]).
Proof.
  split.
  - apply (starter_upstream_failure Sample.starter_globals
             (Fault.client_fails Fault.throttled
                (Sample.world (PInt 0) Sample.no_content))
             PNone PNone Fault.throttled). reflexivity.
  - apply (starter_upstream_failure Sample.starter_globals
             (Fault.describe_fails Fault.throttled
                (Sample.world (PInt 0) Sample.no_content))
             PNone PNone Fault.throttled); reflexivity.
Defined.

(** X3. When the response does not hold [services[0].desiredCount] the
    handler fails with the error of that lookup after the two read calls,
    without an update and without a log line. A response with an empty
    [services] list (the answer for a service the cluster does not have)
    fails with [IndexError]. *)
Theorem starter_unreadable_response
    (g : ServiceAutoStarter.globals) (w : World)
    (event context response : pyval) (e : exn) :
  client_answer w (lit "ecs") (ServiceAutoStarter.REGION g) = OK tt ->
  describe_services_answer w (ServiceAutoStarter.REGION g)
    (ServiceAutoStarter.CLUSTER g) [ServiceAutoStarter.SERVICE g] = OK response ->
  getpath response ServiceAutoStarter.desired_path = Raise e ->
  ServiceAutoStarter.lambda_handler g w event context =
    (Raise e,
     [EvClient (lit "ecs") (ServiceAutoStarter.REGION g);
      EvDescribeServices (ServiceAutoStarter.CLUSTER g)
        [ServiceAutoStarter.SERVICE g]]) /\
  lookup_error e = true /\
  (getitem response (Key (lit "services")) = OK (PList []) ->
   e = IndexError (lit "list index out of range")).
Proof.
  intros Hc Hd Hp. split; [by rewrite lambda_handler_run, Hc, Hd, Hp |].
  split; [by eapply getpath_raises_lookup_error |].
  intros Hs. unfold ServiceAutoStarter.desired_path in Hp.
  cbn [getpath] in Hp. rewrite Hs in Hp.
  change (getitem (PList []) (Idx 0))
    with (@Raise pyval (IndexError (lit "list index out of range"))) in Hp.
  congruence.
Qed.

Lemma starter_unreadable_response_witness :
  ServiceAutoStarter.lambda_handler Sample.starter_globals
    (Fault.describes Fault.missing_service_response
       (Sample.world (PInt 0) Sample.no_content)) PNone PNone =
    (Raise (IndexError (lit "list index out of range")),
     [EvClient (lit "ecs") (Some (lit "us-west-2"));
      EvDescribeServices (Some (lit "minecraft")) [Some (lit "minecraft-server")]]).
Proof.
  apply (starter_unreadable_response Sample.starter_globals
           (Fault.describes Fault.missing_service_response
              (Sample.world (PInt 0) Sample.no_content))
           PNone PNone Fault.missing_service_response
           (IndexError (lit "list index out of range"))); reflexivity.
Defined.

(** X4. The line "Updated desiredCount to 1" is printed exactly when the
    [update_service] call was made and returned; when that call raises, the
    handler raises the same error and prints nothing. *)
Theorem starter_log_confirms_update
    (g : ServiceAutoStarter.globals) (w : World) (event context : pyval) :
  (In (lit "Updated desiredCount to 1")
      (printed (trace (ServiceAutoStarter.lambda_handler g w event context))) <->
   updates (trace (ServiceAutoStarter.lambda_handler g w event context)) =
     [(ServiceAutoStarter.CLUSTER g, ServiceAutoStarter.SERVICE g, 1)] /\
   outcome (ServiceAutoStarter.lambda_handler g w event context) = OK tt) /\
  (forall e,
     updates (trace (ServiceAutoStarter.lambda_handler g w event context)) =
       [(ServiceAutoStarter.CLUSTER g, ServiceAutoStarter.SERVICE g, 1)] ->
     update_service_answer w (ServiceAutoStarter.REGION g)
       (ServiceAutoStarter.CLUSTER g) (ServiceAutoStarter.SERVICE g) 1 = Raise e ->
     outcome (ServiceAutoStarter.lambda_handler g w event context) = Raise e /\
     printed (trace (ServiceAutoStarter.lambda_handler g w event context)) = []).
Proof.
  rewrite lambda_handler_run.
  destruct (client_answer w _ _) as [[] | e0].
  2: { split; [split; [intros [] | intros [[=] _]] | intros e [=]]. }
  destruct (describe_services_answer w _ _ _) as [response | e0].
  2: { split; [split; [intros [] | intros [[=] _]] | intros e [=]]. }
  destruct (getpath response _) as [desired | e0].
  2: { split; [split; [intros [] | intros [[=] _]] | intros e [=]]. }
  destruct (eq_int desired 0).
  2: { split; [split; [intros [[=] | []] | intros [[=] _]] | intros e [=]]. }
  destruct (update_service_answer w _ _ _ 1) as [r | e0].
  - split; [split; [by intros _ | intros _; by left] | intros e _ [=]].
  - split; [split; [intros [] | intros [_ [=]]] | by intros e _ [= <-]].
Qed.

Lemma starter_log_confirms_update_witness :
  outcome (ServiceAutoStarter.lambda_handler Sample.starter_globals
             (Fault.update_fails Fault.throttled
                (Sample.world (PInt 0) Sample.no_content)) PNone PNone) =
    Raise Fault.throttled /\
  printed (trace (ServiceAutoStarter.lambda_handler Sample.starter_globals
                    (Fault.update_fails Fault.throttled
                       (Sample.world (PInt 0) Sample.no_content)) PNone PNone)) = [].
Proof.
  destruct (starter_log_confirms_update Sample.starter_globals
              (Fault.update_fails Fault.throttled
                 (Sample.world (PInt 0) Sample.no_content)) PNone PNone)
    as [_ Hfail].
  apply (Hfail Fault.throttled); reflexivity.
Defined.

(** X5. An invocation that returns has printed exactly one of the two log
    lines; an invocation that raises has printed nothing. *)
Theorem starter_one_line_per_success
    (g : ServiceAutoStarter.globals) (w : World) (event context : pyval) :
  (outcome (ServiceAutoStarter.lambda_handler g w event context) = OK tt /\
   (printed (trace (ServiceAutoStarter.lambda_handler g w event context)) =
      [lit "Updated desiredCount to 1"] \/
    printed (trace (ServiceAutoStarter.lambda_handler g w event context)) =
      [lit "desiredCount already at 1"])) \/
  ((exists e, outcome (ServiceAutoStarter.lambda_handler g w event context) =
              Raise e) /\
   printed (trace (ServiceAutoStarter.lambda_handler g w event context)) = []).
Proof.
  rewrite lambda_handler_run.
  destruct (client_answer w _ _) as [[] | e0]; [| right; split; eauto].
  destruct (describe_services_answer w _ _ _) as [response | e0];
    [| right; split; eauto].
  destruct (getpath response _) as [desired | e0]; [| right; split; eauto].
  destruct (eq_int desired 0); [| left; split; [reflexivity | by right]].
  destruct (update_service_answer w _ _ _ 1) as [r | e0].
  - left. split; [reflexivity | by left].
  - right. split; eauto.
Qed.

(** X6. The handler undoes nothing and repeats nothing: when the service
    next reports the count that an invocation asked for, the following
    invocation makes no [update_service] call and logs that the count is
    already set. *)
Theorem starter_second_run_is_noop
    (g : ServiceAutoStarter.globals) (w1 w2 : World)
    (event1 context1 event2 context2 response2 : pyval)
    (cluster service : option pystr) (n : Z) :
  In (cluster, service, n)
     (updates (trace (ServiceAutoStarter.lambda_handler g w1 event1 context1))) ->
  client_answer w2 (lit "ecs") (ServiceAutoStarter.REGION g) = OK tt ->
  describe_services_answer w2 (ServiceAutoStarter.REGION g)
    (ServiceAutoStarter.CLUSTER g) [ServiceAutoStarter.SERVICE g] = OK response2 ->
  getpath response2 ServiceAutoStarter.desired_path = OK (PInt n) ->
  updates (trace (ServiceAutoStarter.lambda_handler g w2 event2 context2)) = [] /\
  printed (trace (ServiceAutoStarter.lambda_handler g w2 event2 context2)) =
    [lit "desiredCount already at 1"] /\
  outcome (ServiceAutoStarter.lambda_handler g w2 event2 context2) = OK tt.
Proof.
  intros Hfirst Hc Hd Hp.
  assert (Hn : n = 1).
  { rewrite lambda_handler_run in Hfirst.
    destruct (client_answer w1 _ _) as [[] | e]; [| destruct Hfirst].
    destruct (describe_services_answer w1 _ _ _) as [response | e];
      [| destruct Hfirst].
    destruct (getpath response _) as [desired | e]; [| destruct Hfirst].
    destruct (eq_int desired 0); [| destruct Hfirst].
    destruct (update_service_answer w1 _ _ _ 1);
      destruct Hfirst as [[=] | []]; congruence. }
  subst n. by rewrite lambda_handler_run, Hc, Hd, Hp.
Qed.

Lemma starter_second_run_is_noop_witness :
  updates (trace (ServiceAutoStarter.lambda_handler Sample.starter_globals
                    (Sample.world (PInt 1) Sample.no_content) PNone PNone)) = [] /\
  printed (trace (ServiceAutoStarter.lambda_handler Sample.starter_globals
                    (Sample.world (PInt 1) Sample.no_content) PNone PNone)) =
    [lit "desiredCount already at 1"] /\
  outcome (ServiceAutoStarter.lambda_handler Sample.starter_globals
             (Sample.world (PInt 1) Sample.no_content) PNone PNone) = OK tt.
Proof.
  apply (starter_second_run_is_noop Sample.starter_globals
           (Sample.world (PInt 0) Sample.no_content)
           (Sample.world (PInt 1) Sample.no_content)
           PNone PNone PNone PNone (Sample.describe_response (PInt 1))
           (Some (lit "minecraft")) (Some (lit "minecraft-server")) 1).
  - left. reflexivity.
  - reflexivity.
  - reflexivity.
  - reflexivity.
Defined.

(** X7. Only a count equal to zero starts the service. Any other value at
    [services[0].desiredCount] (a negative number, [None], a string, a list)
    is taken as already started: no [update_service] call is made and the
    line "desiredCount already at 1" is printed. *)
Theorem starter_nonzero_is_left_alone
    (g : ServiceAutoStarter.globals) (w : World)
    (event context response desired : pyval) :
  client_answer w (lit "ecs") (ServiceAutoStarter.REGION g) = OK tt ->
  describe_services_answer w (ServiceAutoStarter.REGION g)
    (ServiceAutoStarter.CLUSTER g) [ServiceAutoStarter.SERVICE g] = OK response ->
  getpath response ServiceAutoStarter.desired_path = OK desired ->
  desired <> PInt 0 ->
  desired <> PBool false ->
  ServiceAutoStarter.lambda_handler g w event context =
    (OK tt,
     [EvClient (lit "ecs") (ServiceAutoStarter.REGION g);
      EvDescribeServices (ServiceAutoStarter.CLUSTER g)
        [ServiceAutoStarter.SERVICE g];
      EvPrint (lit "desiredCount already at 1")]).
Proof.
  intros Hc Hd Hp Hint Hbool.
  rewrite lambda_handler_run, Hc, Hd, Hp.
  assert (Hne : eq_int desired 0 = false).
  { destruct desired as [| [] | z | | | |]; cbn; try reflexivity.
    - congruence.
    - destruct (Z.eqb_spec z 0); [congruence | reflexivity]. }
  by rewrite Hne.
Qed.

Lemma starter_nonzero_is_left_alone_witness :
  ServiceAutoStarter.lambda_handler Sample.starter_globals
    (Sample.world (PInt (-1)) Sample.no_content) PNone PNone =
    (OK tt,
     [EvClient (lit "ecs") (Some (lit "us-west-2"));
      EvDescribeServices (Some (lit "minecraft")) [Some (lit "minecraft-server")];
      EvPrint (lit "desiredCount already at 1")]) /\
  ServiceAutoStarter.lambda_handler Sample.starter_globals
    (Sample.world (PStr (lit "0")) Sample.no_content) PNone PNone =
    (OK tt,
     [EvClient (lit "ecs") (Some (lit "us-west-2"));
      EvDescribeServices (Some (lit "minecraft")) [Some (lit "minecraft-server")];
      EvPrint (lit "desiredCount already at 1")]).
Proof.
  split.
  - apply (starter_nonzero_is_left_alone Sample.starter_globals
             (Sample.world (PInt (-1)) Sample.no_content) PNone PNone
             (Sample.describe_response (PInt (-1))) (PInt (-1)));
      try reflexivity; discriminate.
  - apply (starter_nonzero_is_left_alone Sample.starter_globals
             (Sample.world (PStr (lit "0")) Sample.no_content) PNone PNone
             (Sample.describe_response (PStr (lit "0"))) (PStr (lit "0")));
      try reflexivity; discriminate.
Defined.

(** X8. The settings reach the calls: after process start the handler runs
    with the region, cluster and service the environment gives, each
    replaced by its default ("us-west-2", "minecraft", "minecraft-server")
    when unset, and an empty value is used as it is. *)
Theorem starter_cold_start_settings
    (environ : gmap pystr pystr) (w : World) (event context : pyval) :
  ServiceAutoStarter.cold_start environ w event context =
    ServiceAutoStarter.lambda_handler
      {| ServiceAutoStarter.REGION :=
           Some (default (lit "us-west-2") (environ !! lit "REGION"));
         ServiceAutoStarter.CLUSTER :=
           Some (default (lit "minecraft") (environ !! lit "CLUSTER"));
         ServiceAutoStarter.SERVICE :=
           Some (default (lit "minecraft-server") (environ !! lit "SERVICE"));
         ServiceAutoStarter.WEBHOOK := environ !! lit "WEBHOOK" |}
      w event context /\
  head (trace (ServiceAutoStarter.cold_start environ w event context)) =
    Some (EvClient (lit "ecs")
            (Some (default (lit "us-west-2") (environ !! lit "REGION")))).
Proof.
  assert (Hg : ServiceAutoStarter.module_init environ =
    OK {| ServiceAutoStarter.REGION :=
            Some (default (lit "us-west-2") (environ !! lit "REGION"));
          ServiceAutoStarter.CLUSTER :=
            Some (default (lit "minecraft") (environ !! lit "CLUSTER"));
          ServiceAutoStarter.SERVICE :=
            Some (default (lit "minecraft-server") (environ !! lit "SERVICE"));
          ServiceAutoStarter.WEBHOOK := environ !! lit "WEBHOOK" |}).
  { unfold ServiceAutoStarter.module_init, ServiceAutoStarter.missing,
      ServiceAutoStarter.read_environ, environ_get.
    cbn [ServiceAutoStarter.REGION ServiceAutoStarter.CLUSTER
         ServiceAutoStarter.SERVICE].
    destruct (environ !! lit "REGION"), (environ !! lit "CLUSTER"),
      (environ !! lit "SERVICE"), (environ !! lit "WEBHOOK"); reflexivity. }
  unfold ServiceAutoStarter.cold_start. rewrite Hg, bind_lift_OK.
  split; [reflexivity |]. by rewrite lambda_handler_run.
Qed.

(** ** WebhookNotifier, call by call *)

(** The handler in any world and under any configuration: each step, and
    what its answer leads to. *)
Lemma notify_run (g : WebhookNotifier.globals) (w : World)
    (event context : pyval) :
  WebhookNotifier.notifyDiscordWebhook g w event context =
    match urlparse w (WebhookNotifier.WEBHOOK g) with
    | Raise e => raise e
    | OK u =>
        after [EvHTTPSConnection (netloc u)]
          match connection_answer w (netloc u) with
          | Raise e => raise e
          | OK _ =>
              match getpath event WebhookNotifier.message_path with
              | Raise e => raise e
              | OK v =>
                  match py_add (path u) (PStr (lit "?")) with
                  | Raise e => raise e
                  | OK path_q =>
                      match py_add path_q (query u) with
                      | Raise e => raise e
                      | OK target =>
                          match json_dumps (PDict [(lit "content", v)]) with
                          | Raise e => raise e
                          | OK body =>
                              let r :=
                                {| host := netloc u; method := lit "POST";
                                   url := target; body := body;
                                   headers := [(lit "Content-Type",
                                                lit "application/json")] |} in
                              after [EvRequest r]
                                match request_answer w r with
                                | Raise e => raise e
                                | OK _ =>
                                    after [EvGetResponse r]
                                      match getresponse_answer w r with
                                      | Raise e => raise e
                                      | OK res => WebhookNotifier.status_check res
                                      end
                                end
                          end
                      end
                  end
              end
          end
    end.
Proof.
  unfold WebhookNotifier.notifyDiscordWebhook. fold WebhookNotifier.status_check.
  destruct (urlparse w _) as [u | e]; [| reflexivity].
  rewrite bind_lift_OK. unfold HTTPSConnection. rewrite bind_assoc.
  destruct (connection_answer w (netloc u)) as [[] | e].
  2: { by rewrite bind_call_Raise. }
  rewrite bind_call_OK, bind_ret. f_equal.
  destruct (getpath event _) as [v | e]; [| reflexivity].
  rewrite bind_lift_OK.
  destruct (py_add (path u) _) as [path_q | e]; [| reflexivity].
  rewrite bind_lift_OK.
  destruct (py_add path_q _) as [target | e]; [| reflexivity].
  rewrite bind_lift_OK.
  destruct (json_dumps _) as [body | e]; [| reflexivity].
  rewrite bind_lift_OK. unfold conn_request. rewrite bind_assoc. cbv zeta.
  destruct (request_answer w _) as [[] | e].
  2: { by rewrite bind_call_Raise. }
  rewrite bind_call_OK, bind_ret. unfold conn_getresponse. f_equal.
  destruct (getresponse_answer w _) as [res | e]; [| reflexivity].
  by rewrite bind_call_OK.
Qed.

(** X9. No retry and no call out of order: the calls of an invocation are
    an initial part of "make the connection, send one request on it, read
    its response". The response is read only after [conn.request]
    returned, and the handler calls nothing else. *)
Theorem notifier_calls_in_order
    (g : WebhookNotifier.globals) (w : World) (event context : pyval) :
  (exists h r,
     trace (WebhookNotifier.notifyDiscordWebhook g w event context)
       `prefix_of` [EvHTTPSConnection h; EvRequest r; EvGetResponse r] /\
     host r = h /\ method r = lit "POST") /\
  (forall r,
     In (EvGetResponse r)
        (trace (WebhookNotifier.notifyDiscordWebhook g w event context)) ->
     request_answer w r = OK tt).
Proof.
  rewrite notify_run.
  set (dummy h := {| host := h; method := lit "POST"; url := PNone; body := [];
                     headers := [] |}).
  destruct (urlparse w _) as [u | e].
  2: { split; [| intros r []]. exists PNone, (dummy PNone).
       split; [apply prefix_nil | done]. }
  assert (Hone : [EvHTTPSConnection (netloc u)] `prefix_of`
                 [EvHTTPSConnection (netloc u); EvRequest (dummy (netloc u));
                  EvGetResponse (dummy (netloc u))]).
  { by exists [EvRequest (dummy (netloc u)); EvGetResponse (dummy (netloc u))]. }
  assert (Hnone : forall r : Request,
            In (EvGetResponse r) [EvHTTPSConnection (netloc u)] ->
            request_answer w r = OK tt).
  { intros r [[=] | []]. }
  destruct (connection_answer w (netloc u)) as [[] | e];
    [| split; [exists (netloc u), (dummy (netloc u)); by split | exact Hnone]].
  destruct (getpath event _) as [v | e];
    [| split; [exists (netloc u), (dummy (netloc u)); by split | exact Hnone]].
  destruct (py_add (path u) _) as [path_q | e];
    [| split; [exists (netloc u), (dummy (netloc u)); by split | exact Hnone]].
  destruct (py_add path_q _) as [target | e];
    [| split; [exists (netloc u), (dummy (netloc u)); by split | exact Hnone]].
  destruct (json_dumps _) as [body | e];
    [| split; [exists (netloc u), (dummy (netloc u)); by split | exact Hnone]].
  cbv zeta.
  match goal with |- context [EvRequest ?x] => set (r := x) end.
  destruct (request_answer w r) as [[] | e] eqn:Hreq.
  - split.
    + exists (netloc u), r. split; [| done].
      destruct (getresponse_answer w r) as [res | e].
      * rewrite !trace_after, trace_status_check. by exists [].
      * by exists [].
    + intros r'. rewrite !trace_after.
      destruct (getresponse_answer w r) as [res | e];
        [rewrite trace_status_check |];
        intros [[=] | [[=] | [[= <-] | []]]]; exact Hreq.
  - split.
    + exists (netloc u), r. split; [| done]. by exists [EvGetResponse r].
    + intros r' [[=] | [[=] | []]].
Qed.

Lemma notifier_calls_in_order_witness :
  request_answer (Sample.world (PInt 0) Sample.no_content)
    (WebhookNotifier.request_for Sample.hook_parts (content_body (lit "hello"))) =
    OK tt.
Proof.
  destruct (notifier_calls_in_order Sample.notifier_globals
              (Sample.world (PInt 0) Sample.no_content) Sample.hello_event PNone)
    as [_ Hread].
  apply Hread. right. right. left. reflexivity.
Defined.



(** X11. What fails after the request was built. When [conn.request]
    raises, the handler raises the same error and does not ask for a
    response; when [conn.getresponse] raises, the handler raises that error.
    In both cases exactly one request was sent. *)
Theorem notifier_transport_failure
    (g : WebhookNotifier.globals) (w : World) (event context v : pyval)
    (webhook body : pystr) (c : ParseResult pystr) (e : exn) :
  WebhookNotifier.WEBHOOK g = Some webhook ->
  urlparse_str w webhook = OK c ->
  connection_answer w (PStr (netloc c)) = OK tt ->
  getpath event WebhookNotifier.message_path = OK v ->
  json_dumps (PDict [(lit "content", v)]) = OK body ->
  (request_answer w (WebhookNotifier.request_for c body) = Raise e ->
   WebhookNotifier.notifyDiscordWebhook g w event context =
     (Raise e,
      [EvHTTPSConnection (PStr (netloc c));
       EvRequest (WebhookNotifier.request_for c body)])) /\
  (request_answer w (WebhookNotifier.request_for c body) = OK tt ->
   getresponse_answer w (WebhookNotifier.request_for c body) = Raise e ->
   WebhookNotifier.notifyDiscordWebhook g w event context =
     (Raise e,
      [EvHTTPSConnection (PStr (netloc c));
       EvRequest (WebhookNotifier.request_for c body);
       EvGetResponse (WebhookNotifier.request_for c body)])).
Proof.
  intros Hg Hc Hconn Hv Hbody.
  rewrite notify_decomposed, (exchange_run g w event webhook c Hg Hc).
  rewrite Hconn, Hv, Hbody. split.
  - by intros ->.
  - by intros -> ->.
Qed.

Lemma notifier_transport_failure_witness :
  WebhookNotifier.notifyDiscordWebhook Sample.notifier_globals
    (Fault.request_fails Fault.refused (Sample.world (PInt 0) Sample.no_content))
    Sample.hello_event PNone =
    (Raise Fault.refused,
     [EvHTTPSConnection (PStr (lit "discord.com"));
      EvRequest (WebhookNotifier.request_for Sample.hook_parts
                   (content_body (lit "hello")))]) /\
  WebhookNotifier.notifyDiscordWebhook Sample.notifier_globals
    (Fault.getresponse_fails Fault.refused
       (Sample.world (PInt 0) Sample.no_content))
    Sample.hello_event PNone =
    (Raise Fault.refused,
     [EvHTTPSConnection (PStr (lit "discord.com"));
      EvRequest (WebhookNotifier.request_for Sample.hook_parts
                   (content_body (lit "hello")));
      EvGetResponse (WebhookNotifier.request_for Sample.hook_parts
                       (content_body (lit "hello")))]).
Proof.
  split.
  - destruct (notifier_transport_failure Sample.notifier_globals
                (Fault.request_fails Fault.refused
                   (Sample.world (PInt 0) Sample.no_content))
                Sample.hello_event PNone (PStr (lit "hello")) Sample.hook
                (content_body (lit "hello")) Sample.hook_parts Fault.refused
                eq_refl eq_refl eq_refl eq_refl eq_refl)
      as [H _].
    apply H. reflexivity.
  - destruct (notifier_transport_failure Sample.notifier_globals
                (Fault.getresponse_fails Fault.refused
                   (Sample.world (PInt 0) Sample.no_content))
                Sample.hello_event PNone (PStr (lit "hello")) Sample.hook
                (content_body (lit "hello")) Sample.hook_parts Fault.refused
                eq_refl eq_refl eq_refl eq_refl eq_refl)
      as [_ H].
    apply H; reflexivity.
Defined.

(** X12. The outcome for a response, in full. Status 204 succeeds without
    the body being decoded, so a body that is not valid UTF-8 does no harm
    there. Any other status with a body that decodes raises the [ValueError]
    whose message is exactly "Request to Discord returned an error ", the
    status in decimal, ", the response is:", a newline and the decoded body;
    with a body that does not decode, the decoder's error is raised in its
    place. The status check makes no further call. *)
Theorem notifier_outcome_for_response
    (g : WebhookNotifier.globals) (w : World) (event context : pyval)
    (res : HTTPResponse) :
  outcome (WebhookNotifier.exchange g w event) = OK res ->
  trace (WebhookNotifier.notifyDiscordWebhook g w event context) =
    trace (WebhookNotifier.exchange g w event) /\
  (status res = 204 ->
   outcome (WebhookNotifier.notifyDiscordWebhook g w event context) = OK tt) /\
  (status res <> 204 ->
   forall text, decode (read res) = OK text ->
   outcome (WebhookNotifier.notifyDiscordWebhook g w event context) =
     Raise (ValueError (lit "Request to Discord returned an error " ++
                        str_int (status res) ++
                        lit ", the response is:" ++ [NEWLINE] ++ text))) /\
  (status res <> 204 ->
   forall e, decode (read res) = Raise e ->
   outcome (WebhookNotifier.notifyDiscordWebhook g w event context) = Raise e).
Proof.
  intros Hres. rewrite notify_decomposed. split.
  - destruct (WebhookNotifier.exchange g w event) as [r t]. cbn in Hres. subst r.
    unfold bind. cbn [outcome trace fst snd].
    by rewrite trace_status_check, app_nil_r.
  - rewrite outcome_bind, Hres. unfold WebhookNotifier.status_check.
    destruct (Z.eqb_spec (status res) 204) as [H204 | Hother]; cbn [negb].
    + split; [done |]. split; intros H; by destruct H.
    + split; [done |]. split; intros _ x Hx; by rewrite Hx.
Qed.

Lemma notifier_outcome_for_response_witness :
  outcome (WebhookNotifier.notifyDiscordWebhook Sample.notifier_globals
             (Sample.world (PInt 0) Fault.garbled_no_content)
             Sample.hello_event PNone) = OK tt /\
  outcome (WebhookNotifier.notifyDiscordWebhook Sample.notifier_globals
             (Sample.world (PInt 0) Fault.not_found)
             Sample.hello_event PNone) =
    Raise (ValueError (lit "Request to Discord returned an error 404, the response is:" ++
                       [NEWLINE] ++ lit "Unknown Webhook")).
Proof.
  split.
  - destruct (notifier_outcome_for_response Sample.notifier_globals
                (Sample.world (PInt 0) Fault.garbled_no_content)
                Sample.hello_event PNone Fault.garbled_no_content eq_refl)
      as (_ & H & _).
    apply H. reflexivity.
  - destruct (notifier_outcome_for_response Sample.notifier_globals
                (Sample.world (PInt 0) Fault.not_found)
                Sample.hello_event PNone Fault.not_found eq_refl)
      as (_ & _ & H & _).
    apply (H ltac:(discriminate) (lit "Unknown Webhook")). reflexivity.
Defined.

(** ** The body of an error response *)

Lemma decode_from_ascii (object : list byte) (bs : list byte) (pos : nat) :
  Forall (fun b => (Byte.to_N b < 128)%N) bs ->
  utf8_decode_from object pos bs = OK (List.map Byte.to_N bs).
Proof.
  intros Hall. revert pos. induction Hall as [| b bs Hb _ IH]; intros pos.
  - reflexivity.
  - cbn [utf8_decode_from List.map].
    destruct (N.ltb_spec (Byte.to_N b) 128) as [_ | Hge]; [| lia].
    by rewrite IH.
Qed.

(** X13. An ASCII body is quoted as it is: for a status other than 204 and
    a body of bytes below 128, the handler raises the [ValueError] whose
    message ends with the very characters of the body. *)
Theorem notifier_ascii_body_verbatim
    (g : WebhookNotifier.globals) (w : World) (event context : pyval)
    (res : HTTPResponse) :
  outcome (WebhookNotifier.exchange g w event) = OK res ->
  status res <> 204 ->
  Forall (fun b => (Byte.to_N b < 128)%N) (read res) ->
  outcome (WebhookNotifier.notifyDiscordWebhook g w event context) =
    Raise (ValueError (lit "Request to Discord returned an error " ++
                       str_int (status res) ++
                       lit ", the response is:" ++ [NEWLINE] ++
                       List.map Byte.to_N (read res))).
Proof.
  intros Hres Hstatus Hascii.
  rewrite notify_decomposed, outcome_bind, Hres.
  unfold WebhookNotifier.status_check.
  destruct (Z.eqb_spec (status res) 204) as [H204 | _]; [done |].
  cbn [negb]. unfold decode. by rewrite (decode_from_ascii _ _ _ Hascii).
Qed.

Lemma notifier_ascii_body_verbatim_witness :
  outcome (WebhookNotifier.notifyDiscordWebhook Sample.notifier_globals
             (Sample.world (PInt 0) Fault.not_found)
             Sample.hello_event PNone) =
    Raise (ValueError (lit "Request to Discord returned an error " ++
                       lit "404" ++ lit ", the response is:" ++ [NEWLINE] ++
                       lit "Unknown Webhook")).
Proof.
  apply (notifier_ascii_body_verbatim Sample.notifier_globals
           (Sample.world (PInt 0) Fault.not_found) Sample.hello_event PNone
           Fault.not_found eq_refl).
  - discriminate.
  - repeat constructor.
Defined.

(** ** The event *)

Lemma seq_index_first {A} (x : A) (l : list A) : seq_index (x :: l) 0 = Some x.
Proof. reflexivity. Qed.

Lemma dict_get_head (k : pystr) (v : pyval) (rest : list (pystr * pyval)) :
  dict_get ((k, v) :: rest) k = Some v.
Proof. cbn. by rewrite decide_True. Qed.

(** X14. Only the first record is read. An event with further records, or
    with further fields beside [Records], is handled exactly as the event
    that holds its first record alone: the other records are not sent. *)
Theorem notifier_reads_first_record_only
    (g : WebhookNotifier.globals) (w : World) (context : pyval)
    (first : pyval) (more : list pyval) (others : list (pystr * pyval)) :
  WebhookNotifier.notifyDiscordWebhook g w
    (PDict ((lit "Records", PList (first :: more)) :: others)) context =
  WebhookNotifier.notifyDiscordWebhook g w
    (PDict [(lit "Records", PList [first])]) context.
Proof.
  rewrite !notify_run.
  assert (Hsame :
    getpath (PDict ((lit "Records", PList (first :: more)) :: others))
      WebhookNotifier.message_path =
    getpath (PDict [(lit "Records", PList [first])])
      WebhookNotifier.message_path).
  { unfold WebhookNotifier.message_path. cbn [getpath getitem].
    rewrite !dict_get_head. cbn [getitem]. by rewrite !seq_index_first. }
  by rewrite Hsame.
Qed.

(** X15. The events the lookup accepts are exactly those of the
    notification shape: a [dict] whose [Records] is a list that starts with
    a [dict], whose [Sns] is a [dict] that has a [Message]. The handler
    sends a request for no other event. *)
Theorem notifier_accepted_events (event v : pyval) :
  (getpath event WebhookNotifier.message_path = OK v <->
   exists entries record more sns,
     event = PDict entries /\
     dict_get entries (lit "Records") = Some (PList (PDict record :: more)) /\
     dict_get record (lit "Sns") = Some (PDict sns) /\
     dict_get sns (lit "Message") = Some v) /\
  (forall g w context,
     requests (trace (WebhookNotifier.notifyDiscordWebhook g w event context)) <> [] ->
     exists entries record more sns message,
       event = PDict entries /\
       dict_get entries (lit "Records") = Some (PList (PDict record :: more)) /\
       dict_get record (lit "Sns") = Some (PDict sns) /\
       dict_get sns (lit "Message") = Some message).
Proof.
  assert (Hshape : forall x,
    getpath event WebhookNotifier.message_path = OK x ->
    exists entries record more sns,
      event = PDict entries /\
      dict_get entries (lit "Records") = Some (PList (PDict record :: more)) /\
      dict_get record (lit "Sns") = Some (PDict sns) /\
      dict_get sns (lit "Message") = Some x).
  { intros x. unfold WebhookNotifier.message_path. cbn [getpath].
    destruct event as [| | | | | | entries]; try discriminate.
    cbn [getitem].
    destruct (dict_get entries (lit "Records")) as [records |] eqn:Hrecords;
      [| discriminate].
    destruct records as [| | | s | bs | items |]; try discriminate.
    - cbn [getitem]. destruct (seq_index s 0); discriminate.
    - cbn [getitem]. destruct (seq_index bs 0); discriminate.
    - destruct items as [| record more]; [discriminate |].
      cbn [getitem]. rewrite seq_index_first.
      destruct record as [| | | | | | record]; try discriminate.
      cbn [getitem].
      destruct (dict_get record (lit "Sns")) as [sns |] eqn:Hsns; [| discriminate].
      destruct sns as [| | | | | | sns]; try discriminate.
      cbn [getitem].
      destruct (dict_get sns (lit "Message")) as [m |] eqn:Hm; [| discriminate].
      intros [= <-]. by exists entries, record, more, sns. }
  split.
  - split; [apply Hshape |].
    intros (entries & record & more & sns & -> & Hrecords & Hsns & Hm).
    unfold WebhookNotifier.message_path. cbn [getpath getitem].
    rewrite Hrecords. cbn [getitem]. rewrite seq_index_first.
    cbn [getitem]. rewrite Hsns.
    cbn [getitem]. by rewrite Hm.
  - intros g w context Hsent. rewrite notify_run in Hsent.
    destruct (getpath event WebhookNotifier.message_path) as [x | e] eqn:Hx.
    + destruct (Hshape x eq_refl) as (entries & record & more & sns & H).
      by exists entries, record, more, sns, x.
    + exfalso. apply Hsent.
      destruct (urlparse w _) as [u | e0]; [| reflexivity].
      by destruct (connection_answer w (netloc u)) as [[] | e0].
Qed.

Lemma notifier_accepted_events_witness :
  exists entries record more sns,
    Sample.hello_event_full = PDict entries /\
    dict_get entries (lit "Records") = Some (PList (PDict record :: more)) /\
    dict_get record (lit "Sns") = Some (PDict sns) /\
    dict_get sns (lit "Message") = Some (PStr (lit "hello")).
Proof.
  destruct (notifier_accepted_events Sample.hello_event_full (PStr (lit "hello")))
    as [[Hshape _] _].
  apply Hshape. reflexivity.
Defined.

(** ** The body of the request *)

Lemma json_dumps_content (v : pyval) :
  json_dumps (PDict [(lit "content", v)]) =
    match json_dumps v with
    | OK s =>
        OK (lit "{" ++ encode_basestring_ascii (lit "content") ++ lit ": " ++
            s ++ lit "}")
    | Raise e => Raise e
    end.
Proof.
  cbn [json_dumps]. destruct (json_dumps v) as [s | e]; [| reflexivity].
  cbn [join]. by rewrite <- !app_assoc.
Qed.

(** X16. The message is not required to be a string: whatever JSON value
    sits at [Records[0].Sns.Message] is sent, encoded as it is, as the value
    of ["content"] in the body of the one request. *)
Theorem notifier_sends_any_value
    (g : WebhookNotifier.globals) (w : World) (event context v : pyval)
    (webhook encoded : pystr) (c : ParseResult pystr) :
  WebhookNotifier.WEBHOOK g = Some webhook ->
  urlparse_str w webhook = OK c ->
  connection_answer w (PStr (netloc c)) = OK tt ->
  getpath event WebhookNotifier.message_path = OK v ->
  json_dumps v = OK encoded ->
  requests (trace (WebhookNotifier.notifyDiscordWebhook g w event context)) =
    [{| host := PStr (netloc c);
        method := lit "POST";
        url := PStr (path c ++ lit "?" ++ query c);
        body := lit "{" ++ encode_basestring_ascii (lit "content") ++
                lit ": " ++ encoded ++ lit "}";
        headers := [(lit "Content-Type", lit "application/json")] |}].
Proof.
  intros Hg Hc Hconn Hv Hjson.
  rewrite (notify_requests g w event context webhook c Hg Hc), Hconn, Hv.
  by rewrite json_dumps_content, Hjson.
Qed.

Lemma notifier_sends_any_value_witness :
  List.map body
    (requests (trace (WebhookNotifier.notifyDiscordWebhook Sample.notifier_globals
                        (Sample.world (PInt 0) Sample.no_content)
                        Fault.object_message_event PNone))) =
    [lit "{" ++ [QUOTE] ++ lit "content" ++ [QUOTE] ++ lit ": {" ++
     [QUOTE] ++ lit "alarm" ++ [QUOTE] ++ lit ": true, " ++
     [QUOTE] ++ lit "count" ++ [QUOTE] ++ lit ": 3}}"].
Proof.
  rewrite (notifier_sends_any_value Sample.notifier_globals
             (Sample.world (PInt 0) Sample.no_content)
             Fault.object_message_event PNone
             (PDict [(lit "alarm", PBool true); (lit "count", PInt 3)])
             Sample.hook
             (lit "{" ++ [QUOTE] ++ lit "alarm" ++ [QUOTE] ++ lit ": true, " ++
              [QUOTE] ++ lit "count" ++ [QUOTE] ++ lit ": 3}")
             Sample.hook_parts eq_refl eq_refl eq_refl eq_refl eq_refl).
  reflexivity.
Defined.

(** Induction on values, through lists and dicts. *)
Lemma pyval_nested_ind (P : pyval -> Prop) :
  P PNone ->
  (forall b, P (PBool b)) ->
  (forall z, P (PInt z)) ->
  (forall s, P (PStr s)) ->
  (forall bs, P (PBytes bs)) ->
  (forall items, Forall P items -> P (PList items)) ->
  (forall entries, Forall (fun kv => P (snd kv)) entries -> P (PDict entries)) ->
  forall v, P v.
Proof.
  intros Hnone Hbool Hint Hstr Hbytes Hlist Hdict.
  fix IH 1. intros [| b | z | s | bs | items | entries].
  - exact Hnone.
  - apply Hbool.
  - apply Hint.
  - apply Hstr.
  - apply Hbytes.
  - apply Hlist. induction items as [| x items IHitems]; constructor.
    + apply IH.
    + exact IHitems.
  - apply Hdict. induction entries as [| [k x] entries IHentries]; constructor.
    + apply IH.
    + exact IHentries.
Qed.

Lemma all_printable_app (s t : pystr) :
  all_printable s -> all_printable t -> all_printable (s ++ t).
Proof. apply Forall_app_2. Qed.

Lemma all_printable_lit_cons (a : ascii) (s : string) :
  lit (String a s) = N_of_ascii a :: lit s.
Proof. reflexivity. Qed.

Lemma all_printable_uint (d : Decimal.uint) :
  all_printable (lit (NilEmpty.string_of_uint d)).
Proof.
  induction d; cbn [NilEmpty.string_of_uint];
    [constructor | rewrite all_printable_lit_cons; by constructor ..].
Qed.

Lemma all_printable_str_int (z : Z) : all_printable (str_int z).
Proof.
  unfold str_int, NilZero.string_of_int, NilZero.string_of_uint.
  destruct (Z.to_int z) as [d | d].
  - destruct d; try apply all_printable_uint. by repeat constructor.
  - rewrite all_printable_lit_cons. constructor; [reflexivity |].
    destruct d; try apply all_printable_uint. by repeat constructor.
Qed.

Lemma printable_hex_digit (n : N) : printable (hex_digit (n mod 16)) = true.
Proof.
  assert (Hd : (n mod 16 < 16)%N) by (apply N.mod_lt; discriminate).
  revert Hd. generalize (n mod 16)%N. intros d Hd.
  unfold printable, between, hex_digit.
  destruct (N.ltb_spec d 10);
    apply andb_true_iff; split; apply N.leb_le; lia.
Qed.

Lemma all_printable_u_escape (n : N) : all_printable (u_escape n).
Proof.
  unfold u_escape, hex4.
  repeat (constructor; [first [reflexivity | apply printable_hex_digit] |]).
  constructor.
Qed.

Lemma all_printable_escape_char (c : N) : all_printable (escape_char c).
Proof.
  unfold escape_char.
  repeat match goal with
         | |- all_printable (if (?a =? ?b)%N then _ else _) =>
             destruct (a =? b)%N; [by repeat constructor |]
         end.
  destruct ((32 <=? c) && (c <=? 126))%N eqn:Hc; [by repeat constructor |].
  destruct (c <? 65536)%N; [apply all_printable_u_escape |].
  apply all_printable_app; apply all_printable_u_escape.
Qed.

Lemma all_printable_encode (s : pystr) : all_printable (encode_basestring_ascii s).
Proof.
  unfold encode_basestring_ascii.
  apply all_printable_app; [by repeat constructor |].
  apply all_printable_app; [| by repeat constructor].
  induction s as [| c s IH]; [constructor |].
  cbn [List.map concat]. apply all_printable_app; [apply all_printable_escape_char | exact IH].
Qed.

Lemma all_printable_join (sep : pystr) (parts : list pystr) :
  all_printable sep -> Forall all_printable parts ->
  all_printable (join sep parts).
Proof.
  intros Hsep Hparts. induction Hparts as [| p rest Hp Hrest IH]; [constructor |].
  destruct rest as [| q rest]; [exact Hp |].
  change (all_printable (p ++ sep ++ join sep (q :: rest))).
  by repeat apply all_printable_app.
Qed.

(** What [json.dumps] returns is printable ASCII. *)
Lemma all_printable_json_dumps (v : pyval) (s : pystr) :
  json_dumps v = OK s -> all_printable s.
Proof.
  revert s. induction v as [| b | z | m | bs | items IH | entries IH]
    using pyval_nested_ind; intros s.
  - intros [= <-]. by repeat constructor.
  - destruct b; intros [= <-]; by repeat constructor.
  - intros [= <-]. apply all_printable_str_int.
  - intros [= <-]. apply all_printable_encode.
  - discriminate.
  - cbn [json_dumps].
    match goal with |- match ?f items with _ => _ end = _ -> _ => set (each := f) end.
    assert (Heach : forall ss, each items = OK ss -> Forall all_printable ss).
    { induction IH as [| x items Hx _ IHitems]; intros ss.
      - intros [= <-]. constructor.
      - cbn. fold each. destruct (json_dumps x) as [sx | e]; [| discriminate].
        destruct (each items) as [sr | e]; [| discriminate].
        intros [= <-]. constructor; [by apply Hx | by apply IHitems]. }
    destruct (each items) as [ss | e]; [| discriminate].
    intros Hs.
    assert (s = lit "[" ++ join (lit ", ") ss ++ lit "]") as -> by congruence.
    apply all_printable_app; [by repeat constructor |].
    apply all_printable_app; [| by repeat constructor].
    apply all_printable_join; [by repeat constructor | by apply Heach].
  - cbn [json_dumps].
    match goal with |- match ?f entries with _ => _ end = _ -> _ => set (each := f) end.
    assert (Heach : forall ss, each entries = OK ss -> Forall all_printable ss).
    { induction IH as [| [k x] entries Hx _ IHentries]; intros ss.
      - intros [= <-]. constructor.
      - change (each ((k, x) :: entries))
          with (match json_dumps x with
                | OK s0 =>
                    match each entries with
                    | OK ss0 =>
                        OK ((encode_basestring_ascii k ++ lit ": " ++ s0) :: ss0)
                    | Raise e => Raise e
                    end
                | Raise e => Raise e
                end).
        cbn [snd] in Hx.
        destruct (json_dumps x) as [sx | e]; [| discriminate].
        destruct (each entries) as [sr | e]; [| discriminate].
        intros Hss.
        assert (ss = (encode_basestring_ascii k ++ lit ": " ++ sx) :: sr)
          as -> by congruence.
        constructor; [| by apply IHentries].
        apply all_printable_app; [apply all_printable_encode |].
        apply all_printable_app; [by repeat constructor | by apply Hx]. }
    destruct (each entries) as [ss | e]; [| discriminate].
    intros Hs.
    assert (s = lit "{" ++ join (lit ", ") ss ++ lit "}") as -> by congruence.
    apply all_printable_app; [by repeat constructor |].
    apply all_printable_app; [| by repeat constructor].
    apply all_printable_join; [by repeat constructor | by apply Heach].
Qed.

(** X17. Every body the notifier sends is printable ASCII, whatever code
    points the message holds: characters outside ASCII leave as [\uXXXX]
    escapes, so the body never fails to be encoded for the wire. *)
Theorem notifier_body_is_ascii
    (g : WebhookNotifier.globals) (w : World) (event context : pyval)
    (r : Request) :
  In r (requests (trace (WebhookNotifier.notifyDiscordWebhook g w event context))) ->
  all_printable (body r).
Proof.
  rewrite notify_run.
  destruct (urlparse w _) as [u | e]; [| intros []].
  destruct (connection_answer w (netloc u)) as [[] | e]; [| intros []].
  destruct (getpath event _) as [v | e]; [| intros []].
  destruct (py_add (path u) _) as [path_q | e]; [| intros []].
  destruct (py_add path_q _) as [target | e]; [| intros []].
  destruct (json_dumps (PDict [(lit "content", v)])) as [b | e] eqn:Hb;
    [| intros []].
  cbv zeta. intros Hr.
  assert (Hone : r = {| host := netloc u; method := lit "POST"; url := target;
                        body := b;
                        headers := [(lit "Content-Type", lit "application/json")] |}).
  { destruct (request_answer w _) as [[] | e]; [| by destruct Hr as [<- | []]].
    rewrite !trace_after, !requests_app in Hr.
    destruct (getresponse_answer w _) as [res | e];
      [rewrite trace_status_check in Hr |]; by destruct Hr as [<- | []]. }
  subst r. cbn [body]. by eapply all_printable_json_dumps.
Qed.

Lemma notifier_body_is_ascii_witness :
  all_printable
    (lit "{" ++ [QUOTE] ++ lit "content" ++ [QUOTE] ++ lit ": " ++ [QUOTE] ++
     lit "caf\u00e9 \u20ac \ud83d\ude00" ++ [QUOTE] ++ lit "}").
Proof.
  apply (notifier_body_is_ascii Sample.notifier_globals
           (Sample.world (PInt 0) Sample.no_content) Fault.unicode_event PNone
           (WebhookNotifier.request_for Sample.hook_parts
              (lit "{" ++ [QUOTE] ++ lit "content" ++ [QUOTE] ++ lit ": " ++
               [QUOTE] ++ lit "caf\u00e9 \u20ac \ud83d\ude00" ++ [QUOTE] ++
               lit "}"))).
  left. reflexivity.
Defined.

(** ** WebhookNotifier from process start *)

(** X18. Once the process of WebhookNotifier has started, the handler works
    on the URL the environment gives (any value, the empty string too), and
    never on the empty [bytes] parse that a missing URL would give: every
    connection it makes and every request it sends has a [str] host and a
    [str] target. *)
Theorem notifier_cold_start_uses_url
    (environ : gmap pystr pystr) (w : World) (event context : pyval) :
  (forall v,
     environ !! lit "WEBHOOK" = Some v ->
     WebhookNotifier.cold_start environ w event context =
       WebhookNotifier.notifyDiscordWebhook
         {| WebhookNotifier.WEBHOOK := Some v |} w event context) /\
  (forall h,
     In (EvHTTPSConnection h)
        (trace (WebhookNotifier.cold_start environ w event context)) ->
     exists s, h = PStr s) /\
  (forall r,
     In r (requests (trace (WebhookNotifier.cold_start environ w event context))) ->
     exists s target, host r = PStr s /\ url r = PStr target).
Proof.
  unfold WebhookNotifier.cold_start, WebhookNotifier.module_init,
    WebhookNotifier.read_environ, environ_get.
  cbn [WebhookNotifier.WEBHOOK].
  destruct (environ !! lit "WEBHOOK") as [v |].
  2: { split; [discriminate |]. split; [intros h [] | intros r []]. }
  cbn [is_None]. rewrite bind_lift_OK. split; [by intros ? [= <-] |].
  rewrite notify_run. unfold urlparse. cbn [WebhookNotifier.WEBHOOK].
  destruct (urlparse_str w v) as [c | e].
  2: { split; [intros h [] | intros r []]. }
  cbn [netloc path query py_add].
  assert (Hone : forall h : pyval,
            In (EvHTTPSConnection h) [EvHTTPSConnection (PStr (netloc c))] ->
            exists s, h = PStr s).
  { intros h [[= <-] | []]. eauto. }
  destruct (connection_answer w _) as [[] | e];
    [| split; [exact Hone | intros r []]].
  destruct (getpath event _) as [m | e]; [| split; [exact Hone | intros r []]].
  destruct (json_dumps _) as [b | e]; [| split; [exact Hone | intros r []]].
  cbv zeta.
  match goal with |- context [EvRequest ?x] => set (sent := x) end.
  destruct (request_answer w sent) as [[] | e].
  - rewrite !trace_after.
    assert (Hnocall : forall res,
              trace (WebhookNotifier.status_check res) = []).
    { apply trace_status_check. }
    destruct (getresponse_answer w sent) as [res | e];
      [rewrite Hnocall |]; (split;
        [intros h [[= <-] | [[=] | [[=] | []]]]; eauto
        | intros r [<- | []]; cbn; eauto]).
  - split.
    + intros h [[= <-] | [[=] | []]]. eauto.
    + intros r [<- | []]. cbn. eauto.
Qed.

Lemma notifier_cold_start_uses_url_witness :
  WebhookNotifier.cold_start {[ lit "WEBHOOK" := Sample.hook ]}
    (Sample.world (PInt 0) Sample.no_content) Sample.hello_event PNone =
    WebhookNotifier.notifyDiscordWebhook Sample.notifier_globals
      (Sample.world (PInt 0) Sample.no_content) Sample.hello_event PNone.
Proof.
  destruct (notifier_cold_start_uses_url {[ lit "WEBHOOK" := Sample.hook ]}
              (Sample.world (PInt 0) Sample.no_content) Sample.hello_event PNone)
    as [Hstart _].
  apply Hstart. vm_compute. reflexivity.
Defined.
